(** * Header soundness commitment: a model of [app.py]

    The development follows the source file top to bottom.  Python values are
    modelled as follows: [int] is [Z]; [bytes] / [HexBytes] is a list of
    [Byte.byte]; [str] is a [string] of ASCII characters; the [NETWORKS]
    dictionary is a [gmap Z string]; an exception is a value of [exn] carried
    by the [result] type. *)

From Stdlib Require Import ZArith List Bool Lia.
From Stdlib Require Import Strings.Ascii Strings.String Init.Byte.
From stdpp Require Import gmap strings list.
Import ListNotations.

Local Open Scope Z_scope.

(** ** Exceptions and fallible computations *)

(** The Python exceptions the program can meet.  [ProviderError] stands for
    whatever the web3 client raises when a block cannot be served. *)
Inductive exn : Type :=
| OverflowError
| ValueError
| ProviderError
| SystemExit (code : Z).

Inductive result (A : Type) : Type :=
| Ok (a : A)
| Raise (e : exn).
Arguments Ok {A} a.
Arguments Raise {A} e.

(** Sequencing stops at the first exception, as Python does; the [x ← m; k]
    notation below is the one of stdpp's [MBind] class. *)
Global Instance result_ret : MRet result := fun A a => Ok a.
Global Instance result_bind : MBind result := fun A B k m =>
  match m with
  | Ok a => k a
  | Raise e => Raise e
  end.

(** ** Bytes *)

Definition Z_of_byte (b : byte) : Z := Z.of_N (Byte.to_N b).

Definition byte_of_Z (z : Z) : byte :=
  match Byte.of_N (Z.to_N (z mod 256)) with
  | Some b => b
  | None => x00
  end.

(** ** Keccak-256, the function behind [Web3.keccak]

    The original Keccak submission with rate 1088 and capacity 512 (padding
    byte 0x01), not the later SHA3-256 (padding byte 0x06).  The sponge is
    written once, over the padding byte. *)
Module Keccak.

Definition mask64 : Z := 2 ^ 64 - 1.

Definition rotl64 (x : Z) (n : Z) : Z :=
  Z.land (Z.lor (Z.shiftl x n) (Z.shiftr x (64 - n))) mask64.

Definition not64 (x : Z) : Z := Z.lxor x mask64.

(** The state is 25 lanes of 64 bits; lane (x, y) lives at index x + 5 y. *)
Definition lane (s : list Z) (x y : nat) : Z :=
  nth ((x mod 5) + 5 * (y mod 5))%nat s 0.

Definition coords : list (nat * nat) :=
  flat_map (fun y => map (fun x => (x, y)) (seq 0 5)) (seq 0 5).

Definition rotation_offsets : list Z :=
  [ 0;  1; 62; 28; 27;
   36; 44;  6; 55; 20;
    3; 10; 43; 25; 39;
   41; 45; 15; 21;  8;
   18;  2; 61; 56; 14].

Definition round_constants : list Z :=
  [0x0000000000000001; 0x0000000000008082; 0x800000000000808A;
   0x8000000080008000; 0x000000000000808B; 0x0000000080000001;
   0x8000000080008081; 0x8000000000008009; 0x000000000000008A;
   0x0000000000000088; 0x0000000080008009; 0x000000008000000A;
   0x000000008000808B; 0x800000000000008B; 0x8000000000008089;
   0x8000000000008003; 0x8000000000008002; 0x8000000000000080;
   0x000000000000800A; 0x800000008000000A; 0x8000000080008081;
   0x8000000000008080; 0x0000000080000001; 0x8000000080008008].

Definition theta (s : list Z) : list Z :=
  let C x := fold_left Z.lxor (map (lane s x) (seq 0 5)) 0 in
  let D x := Z.lxor (C (x + 4)%nat) (rotl64 (C (x + 1)%nat) 1) in
  map (fun '(x, y) => Z.lxor (lane s x y) (D x)) coords.

Definition rho_pi (s : list Z) : list Z :=
  map (fun '(X, Y) =>
         let x := ((X + 3 * Y) mod 5)%nat in
         let y := X in
         rotl64 (lane s x y) (nth (x + 5 * y)%nat rotation_offsets 0))
      coords.

Definition chi (s : list Z) : list Z :=
  map (fun '(x, y) =>
         Z.lxor (lane s x y)
                (Z.land (not64 (lane s (x + 1) y)) (lane s (x + 2) y)))
      coords.

Definition iota (rc : Z) (s : list Z) : list Z :=
  match s with
  | [] => []
  | l :: rest => Z.lxor l rc :: rest
  end.

Definition round (s : list Z) (rc : Z) : list Z :=
  iota rc (chi (rho_pi (theta s))).

Definition keccak_f (s : list Z) : list Z :=
  fold_left round round_constants s.

Definition rate : nat := 136.

(** XOR one byte into the state at byte position [pos] of the rate. *)
Definition xor_byte (s : list Z) (pos : nat) (b : Z) : list Z :=
  let i := (pos / 8)%nat in
  let sh := 8 * Z.of_nat (pos mod 8) in
  firstn i s ++ Z.lxor (nth i s 0) (Z.shiftl b sh) :: skipn (S i) s.

(** Absorb the message a byte at a time, permuting at each full block. *)
Fixpoint absorb (s : list Z) (pos : nat) (m : list byte) : list Z * nat :=
  match m with
  | [] => (s, pos)
  | b :: m' =>
      let s' := xor_byte s pos (Z_of_byte b) in
      if (S pos =? rate)%nat then absorb (keccak_f s') 0 m'
      else absorb s' (S pos) m'
  end.

Definition lane_bytes (l : Z) : list byte :=
  map (fun k => byte_of_Z (Z.shiftr l (8 * Z.of_nat k))) (seq 0 8).

Definition sponge256 (suffix : Z) (m : list byte) : list byte :=
  let '(s, pos) := absorb (repeat 0 25) 0 m in
  let s := xor_byte s pos suffix in
  let s := xor_byte s (rate - 1) 0x80 in
  let s := keccak_f s in
  flat_map (fun i => lane_bytes (nth i s 0)) (seq 0 4).

Definition keccak256 (m : list byte) : list byte := sponge256 0x01 m.
Definition sha3_256 (m : list byte) : list byte := sponge256 0x06 m.

End Keccak.

(** ** Hexadecimal text *)

Definition hex_digit (n : Z) : ascii :=
  if n <? 10 then ascii_of_N (Z.to_N (48 + n))
  else ascii_of_N (Z.to_N (87 + n)).

(** [bytes.hex()]: two lowercase digits per byte, no prefix. *)
Fixpoint hexlify (bs : list byte) : string :=
  match bs with
  | [] => EmptyString
  | b :: bs' =>
      String (hex_digit (Z_of_byte b / 16))
             (String (hex_digit (Z_of_byte b mod 16)) (hexlify bs'))
  end.

(** ASCII white space (CPython's [Py_ISSPACE]): tab to carriage return, and
    the space. *)
Definition is_space (c : ascii) : bool :=
  let n := Z.of_N (N_of_ascii c) in
  ((9 <=? n) && (n <=? 13)) || (n =? 32).

(** The value of a character as a digit, 37 when it is none (CPython's
    [_PyLong_DigitValue]). *)
Definition digit_value (c : ascii) : Z :=
  let n := Z.of_N (N_of_ascii c) in
  if (48 <=? n) && (n <=? 57) then n - 48
  else if (97 <=? n) && (n <=? 122) then n - 87
  else if (65 <=? n) && (n <=? 90) then n - 55
  else 37.

(** [bytes.fromhex(s)]: white space is skipped between bytes, each byte is
    two hexadecimal digits of either case, anything else is a [ValueError]. *)
Fixpoint fromhex (s : string) : result (list byte) :=
  match s with
  | EmptyString => Ok []
  | String c r =>
      if is_space c then fromhex r
      else
        match r with
        | EmptyString => Raise ValueError
        | String d r' =>
            if (digit_value c <? 16) && (digit_value d <? 16) then
              bs ← fromhex r';
              Ok (byte_of_Z (16 * digit_value c + digit_value d) :: bs)
            else Raise ValueError
        end
  end.

(** The slice [s[n:]] of a string. *)
Fixpoint slice_from (n : nat) (s : string) : string :=
  match n, s with
  | O, _ => s
  | S _, EmptyString => EmptyString
  | S k, String _ r => slice_from k r
  end.

(** [HexBytes.hex()] changed between releases of the hexbytes package:
    before 1.0 (the release web3 6 installs) the text starts with 0x, from
    1.0 on (web3 7) it is the bare digits of [bytes.hex()]. *)
Inductive hexbytes_release : Type :=
| Hexbytes0
| Hexbytes1.

Definition HexBytes_hex (rel : hexbytes_release) (bs : list byte) : string :=
  match rel with
  | Hexbytes0 => String "0" (String "x" (hexlify bs))
  | Hexbytes1 => hexlify bs
  end.

(** ** Integers and text *)

(** [str.lower()] on ASCII text.  Text is taken to be ASCII throughout: a
    character above 127 is left as it is here and is neither a digit nor
    white space below. *)
Definition lower_char (c : ascii) : ascii :=
  let n := N_of_ascii c in
  if ((65 <=? n) && (n <=? 90))%N then ascii_of_N (n + 32) else c.

Fixpoint lower (s : string) : string :=
  match s with
  | EmptyString => EmptyString
  | String c r => String (lower_char c) (lower r)
  end.

(** CPython refuses to convert between [int] and decimal text beyond this
    many digits ([sys.int_info.default_max_str_digits]). *)
Definition max_str_digits : nat := 4300.

Definition decimal_digit (n : Z) : ascii := ascii_of_N (Z.to_N (48 + n)).

(** The decimal digits of a non-negative integer, most significant first. *)
Fixpoint decimal_digits (fuel : nat) (n : Z) : list ascii :=
  match fuel with
  | O => []
  | S f =>
      if n <? 10 then [decimal_digit n]
      else decimal_digits f (n / 10) ++ [decimal_digit (n mod 10)]
  end.

Definition decimal (n : Z) : list ascii :=
  decimal_digits (S (Z.to_nat (Z.log2 n))) n.

(** [str(n)], which is also what an f-string writes for [{n}]. *)
Definition str_int (n : Z) : result string :=
  let ds := decimal (Z.abs n) in
  if (max_str_digits <? length ds)%nat then Raise ValueError
  else Ok (string_of_list_ascii (if n <? 0 then "-"%char :: ds else ds)).

Fixpoint skip_space (s : string) : string :=
  match s with
  | String c r => if is_space c then skip_space r else s
  | EmptyString => s
  end.

(** The digit loop of [PyLong_FromString]: digits below the base, single
    underscores between them, no underscore at the end.  It returns the
    value, the number of digits and the text left over. *)
Fixpoint scan_digits (base : Z) (prev_underscore : bool) (acc : Z) (count : nat)
         (s : string) : result (Z * nat * string) :=
  match s with
  | String c r =>
      if Ascii.eqb c "_" then
        if prev_underscore then Raise ValueError
        else scan_digits base true acc count r
      else if digit_value c <? base then
        scan_digits base false (acc * base + digit_value c) (S count) r
      else if prev_underscore then Raise ValueError
      else Ok (acc, count, s)
  | EmptyString =>
      if prev_underscore then Raise ValueError else Ok (acc, count, s)
  end.

Definition is_power_of_two_base (base : Z) : bool :=
  (base =? 2) || (base =? 8) || (base =? 16).

(** [int(s, 0)] goes through white space, an optional sign, the base read
    off the prefix (0x, 0o, 0b, else ten, where a leading zero is only allowed
    for zero itself), the digits, and white space again. *)
Definition strip_sign (s : string) : bool * string :=
  match s with
  | String c r =>
      if Ascii.eqb c "+" then (false, r)
      else if Ascii.eqb c "-" then (true, r)
      else (false, s)
  | EmptyString => (false, s)
  end.

(** The base, whether the literal has to be zero, and the text after the
    prefix. *)
Definition detect_base (s : string) : Z * bool * string :=
  match s with
  | String c0 r0 =>
      if negb (Ascii.eqb c0 "0") then (10, false, s)
      else
        match r0 with
        | String c1 r =>
            if Ascii.eqb c1 "x" || Ascii.eqb c1 "X" then (16, false, r)
            else if Ascii.eqb c1 "o" || Ascii.eqb c1 "O" then (8, false, r)
            else if Ascii.eqb c1 "b" || Ascii.eqb c1 "B" then (2, false, r)
            else (10, true, s)
        | EmptyString => (10, true, s)
        end
  | EmptyString => (10, false, s)
  end.

Definition starts_with_underscore (s : string) : bool :=
  match s with
  | String c _ => Ascii.eqb c "_"
  | EmptyString => false
  end.

(** The literal after the sign. *)
Definition int_magnitude (negative : bool) (s : string) : result Z :=
  let '(base, error_if_nonzero, s) := detect_base s in
  let s :=
    if is_power_of_two_base base && starts_with_underscore s
    then slice_from 1 s else s in
  if starts_with_underscore s then Raise ValueError
  else
    '(value, count, rest) ← scan_digits base false 0 0 s;
    if (count =? 0)%nat then Raise ValueError
    else if negb (is_power_of_two_base base) && (max_str_digits <? count)%nat
    then Raise ValueError
    else if error_if_nonzero && negb (value =? 0) then Raise ValueError
    else
      match skip_space rest with
      | EmptyString => Ok (if negative then - value else value)
      | String _ _ => Raise ValueError
      end.

Definition int_base0 (s : string) : result Z :=
  let '(negative, s) := strip_sign (skip_space s) in
  int_magnitude negative s.

(** [int.to_bytes(length, "big")] of an unsigned integer. *)
Fixpoint le_bytes (length : nat) (n : Z) : list byte :=
  match length with
  | O => []
  | S k => byte_of_Z n :: le_bytes k (n / 256)
  end.

Definition to_bytes (n : Z) (length : nat) : result (list byte) :=
  if n <? 0 then Raise OverflowError
  else if 256 ^ Z.of_nat length <=? n then Raise OverflowError
  else Ok (rev (le_bytes length n)).

(** ** The program *)

Definition NETWORKS : gmap Z string :=
  <[1 := "Ethereum Mainnet"%string]>
  (<[11155111 := "Sepolia Testnet"%string]>
  (<[10 := "Optimism"%string]>
  (<[137 := "Polygon"%string]>
  (<[42161 := "Arbitrum One"%string]> ∅)))).

(** The default of [dict.get] is an argument, so the f-string is built
    before the table is consulted. *)
Definition network_name (cid : Z) : result string :=
  digits ← str_int cid;
  let fallback := ("Unknown (chain ID " +:+ digits +:+ ")")%string in
  Ok (default fallback (NETWORKS !! cid)).

(** A block reference: a symbolic tag (a [str]) or a height (an [int]). *)
Inductive block_id : Type :=
| Tag (name : string)
| Height (n : Z).

Definition tags : list string :=
  ["latest"; "finalized"; "safe"; "pending"]%string.

Definition is_tag (s : string) : bool :=
  existsb (String.eqb s) tags.

Definition parse_block_arg (arg : string) : result block_id :=
  if is_tag (lower arg) then Ok (Tag (lower arg))
  else n ← int_base0 arg; Ok (Height n).

(** A block header as the web3 client returns it: integers and [HexBytes]
    values.  Nothing in [app.py] looks at the length of a [HexBytes] value,
    so a field is a byte string of any length. *)
Module Header.
Record t : Type := mk {
  number : Z;
  timestamp : Z;
  hash : list byte;
  parentHash : list byte;
  stateRoot : list byte;
  receiptsRoot : list byte;
  transactionsRoot : list byte;
}.
End Header.

(** The dictionary [fetch_header_bundle] builds, one field per key. *)
Module Bundle.
Record t : Type := mk {
  chain_id : Z;
  network : string;
  number : Z;
  timestamp : Z;
  hash : string;
  parentHash : string;
  stateRoot : string;
  receiptsRoot : string;
  transactionsRoot : string;
  commitment : string;
}.
End Bundle.

(** What the node behind an endpoint answers.  The answers are functions of
    the request, so asking twice gives the same answer. *)
Record Node : Type := {
  is_connected : bool;
  eth_chain_id : Z;
  eth_get_block : block_id -> result Header.t;
}.

(** A client object: the endpoint it was made for and the node it reaches. *)
Record Web3 : Type := {
  endpoint : string;
  node : Node;
}.

(** What the program writes on standard output, line by line.  The wording
    and the formatting of a line are left out, its content is kept. *)
Inductive line : Type :=
| ConnectionFailed (url : string)
| BundleTitle (label : string)
| NetworkLine (network : string) (chain_id : Z)
| BlockLine (number : Z) (utc : string)
| FieldLine (key : string) (value : string)
| MatchLine (what : string) (same : bool)
| SoundnessConfirmed
| InconsistencyDetected
| MissingRpc
| InvalidBlock
| Elapsed.

Inductive event : Type :=
| Print (l : line)
| AskConnected (url : string)
| AskChainId (url : string)
| AskBlock (url : string) (id : block_id).

(** A run: the events so far and how the run stands. *)
Definition prog (A : Type) : Type := (list event * result A)%type.

Global Instance prog_ret : MRet prog := fun A a => ([], Ok a).
Global Instance prog_bind : MBind prog := fun A B k m =>
  match m with
  | (t, Ok a) => let '(t', r) := k a in (t ++ t', r)
  | (t, Raise e) => (t, Raise e)
  end.

Definition emit (e : event) : prog unit := ([e], Ok tt).
Definition print (l : line) : prog unit := emit (Print l).
Definition lift {A : Type} (r : result A) : prog A := ([], r).
Definition sys_exit {A : Type} (code : Z) : prog A := ([], Raise (SystemExit code)).

(** [all(xs)] on a list of booleans. *)
Definition all (xs : list bool) : bool := forallb id xs.

(** The eight comparisons of [compare]. *)
Record ComparisonResult : Type := {
  same_chain : bool;
  same_num : bool;
  same_hash : bool;
  same_parent : bool;
  same_state : bool;
  same_receipts : bool;
  same_txroot : bool;
  same_commit : bool;
}.

Definition sound (r : ComparisonResult) : bool :=
  all [same_chain r; same_num r; same_hash r; same_parent r;
       same_state r; same_receipts r; same_txroot r; same_commit r].

Definition comparison (a b : Bundle.t) : ComparisonResult :=
  {| same_chain := Bundle.chain_id a =? Bundle.chain_id b;
     same_num := Bundle.number a =? Bundle.number b;
     same_hash := String.eqb (Bundle.hash a) (Bundle.hash b);
     same_parent := String.eqb (Bundle.parentHash a) (Bundle.parentHash b);
     same_state := String.eqb (Bundle.stateRoot a) (Bundle.stateRoot b);
     same_receipts := String.eqb (Bundle.receiptsRoot a) (Bundle.receiptsRoot b);
     same_txroot :=
       String.eqb (Bundle.transactionsRoot a) (Bundle.transactionsRoot b);
     same_commit := String.eqb (Bundle.commitment a) (Bundle.commitment b) |}.

Definition compare (a b : Bundle.t) : prog unit :=
  let r := comparison a b in
  print (MatchLine "Chain IDs match" (same_chain r));;
  print (MatchLine "Block numbers match" (same_num r));;
  print (MatchLine "Block hashes match" (same_hash r));;
  print (MatchLine "Parent hashes match" (same_parent r));;
  print (MatchLine "stateRoot matches" (same_state r));;
  print (MatchLine "receiptsRoot matches" (same_receipts r));;
  print (MatchLine "txRoot matches" (same_txroot r));;
  print (MatchLine "Commitments match" (same_commit r));;
  if sound r then print SoundnessConfirmed else print InconsistencyDetected.

Section Program.

(** The installed hexbytes release, the node behind each URL, and the
    platform's [time.strftime(..., time.gmtime(t))]. *)
Variable rel : hexbytes_release.
Variable HTTPProvider : string -> Node.
Variable strftime_gmtime : Z -> result string.

(** The byte string [fields] of [header_commitment]. *)
Definition fields (chain_id : Z) (header : Header.t) : result (list byte) :=
  let num := Header.number header in
  let ts := Header.timestamp header in
  b_chain ← to_bytes chain_id 8;
  b_num ← to_bytes num 8;
  b_hash ← fromhex (slice_from 2 (HexBytes_hex rel (Header.hash header)));
  b_parent ← fromhex (slice_from 2 (HexBytes_hex rel (Header.parentHash header)));
  b_state ← fromhex (slice_from 2 (HexBytes_hex rel (Header.stateRoot header)));
  b_receipts ←
    fromhex (slice_from 2 (HexBytes_hex rel (Header.receiptsRoot header)));
  b_txroot ←
    fromhex (slice_from 2 (HexBytes_hex rel (Header.transactionsRoot header)));
  b_ts ← to_bytes ts 8;
  Ok (b_chain ++ b_num ++ b_hash ++ b_parent ++ b_state ++ b_receipts
        ++ b_txroot ++ b_ts).

Definition header_commitment (chain_id : Z) (header : Header.t)
  : result string :=
  preimage ← fields chain_id header;
  Ok ("0x" +:+ HexBytes_hex rel (Keccak.keccak256 preimage))%string.

Definition w3_connect (url : string) : prog Web3 :=
  let w3 := {| endpoint := url; node := HTTPProvider url |} in
  emit (AskConnected url);;
  if is_connected (node w3) then mret w3
  else print (ConnectionFailed url);; sys_exit 1.

Definition fetch_header_bundle (w3 : Web3) (id : block_id) : prog Bundle.t :=
  emit (AskBlock (endpoint w3) id);;
  header ← lift (eth_get_block (node w3) id);
  emit (AskChainId (endpoint w3));;
  let cid := eth_chain_id (node w3) in
  emit (AskChainId (endpoint w3));;
  name ← lift (network_name (eth_chain_id (node w3)));
  commitment ← lift (header_commitment cid header);
  mret {| Bundle.chain_id := cid;
          Bundle.network := name;
          Bundle.number := Header.number header;
          Bundle.timestamp := Header.timestamp header;
          Bundle.hash := HexBytes_hex rel (Header.hash header);
          Bundle.parentHash := HexBytes_hex rel (Header.parentHash header);
          Bundle.stateRoot := HexBytes_hex rel (Header.stateRoot header);
          Bundle.receiptsRoot := HexBytes_hex rel (Header.receiptsRoot header);
          Bundle.transactionsRoot :=
            HexBytes_hex rel (Header.transactionsRoot header);
          Bundle.commitment := commitment |}.

Definition print_bundle (label : string) (b : Bundle.t) : prog unit :=
  print (BundleTitle label);;
  print (NetworkLine (Bundle.network b) (Bundle.chain_id b));;
  utc ← lift (strftime_gmtime (Bundle.timestamp b));
  print (BlockLine (Bundle.number b) utc);;
  print (FieldLine "Hash" (Bundle.hash b));;
  print (FieldLine "Parent" (Bundle.parentHash b));;
  print (FieldLine "stateRoot" (Bundle.stateRoot b));;
  print (FieldLine "receiptsRoot" (Bundle.receiptsRoot b));;
  print (FieldLine "txRoot" (Bundle.transactionsRoot b));;
  print (FieldLine "Header Commitment" (Bundle.commitment b)).

(** The command line after [argparse]: [--rpc1] always has a text (its
    default comes from the environment), [--rpc2] may be [None]. *)
Record Args : Type := {
  rpc1 : string;
  rpc2 : option string;
  block : string;
}.

(** The truth value of a string or of [None]. *)
Definition truthy (s : option string) : bool :=
  match s with
  | Some (String _ _) => true
  | _ => false
  end.

(** The reference [b_id] the secondary provider is asked for. *)
Definition secondary_block_id (primary : Bundle.t) (id : block_id) : block_id :=
  match id with
  | Height _ => Height (Bundle.number primary)
  | Tag _ => id
  end.

Definition main (args : Args) : prog unit :=
  if negb (truthy (Some (rpc1 args))) then print MissingRpc;; sys_exit 1
  else
    id ← match parse_block_arg (block args) with
         | Ok id => mret id
         | Raise (SystemExit code) => sys_exit code
         | Raise _ => print InvalidBlock;; sys_exit 1
         end;
    w3a ← w3_connect (rpc1 args);
    primary ← fetch_header_bundle w3a id;
    print_bundle "PRIMARY" primary;;
    (if truthy (rpc2 args) then
       w3b ← w3_connect (default EmptyString (rpc2 args));
       let b_id := secondary_block_id primary id in
       secondary ← fetch_header_bundle w3b b_id;
       print_bundle "SECONDARY" secondary;;
       compare primary secondary
     else mret tt);;
    print Elapsed.

End Program.

(** ** Definitions used to state the properties *)

Definition bytes_of_string (s : string) : list byte := list_byte_of_string s.

(** What [bytes.fromhex(x.hex()[2:])] keeps of a [HexBytes] value [x]: all of
    it when [hex()] writes the 0x prefix, all but the first byte when it does
    not. *)
Definition sliced (rel : hexbytes_release) (bs : list byte) : list byte :=
  match rel with
  | Hexbytes0 => bs
  | Hexbytes1 => tl bs
  end.

(** [int.from_bytes(bs, "little")], the inverse used in the proofs. *)
Fixpoint le_value (bs : list byte) : Z :=
  match bs with
  | [] => 0
  | b :: bs' => Z_of_byte b + 256 * le_value bs'
  end.

(** [int.from_bytes(bs, "big")]. *)
Definition from_bytes (bs : list byte) : Z := le_value (rev bs).

(** The spec's own words for an integer field: 8 bytes, most significant
    first, zero-padded. *)
Definition big_endian8 (n : Z) : list byte :=
  map (fun k => byte_of_Z (n / 256 ^ k)) [7; 6; 5; 4; 3; 2; 1; 0].

Definition fits8 (n : Z) : Prop := 0 <= n < 2 ^ 64.

(** The field domain of the commitment: three integers of 8 unsigned bytes
    and five values of exactly 32 bytes. *)
Definition in_field_domain (chain_id : Z) (h : Header.t) : Prop :=
  fits8 chain_id /\ fits8 (Header.number h) /\ fits8 (Header.timestamp h) /\
  length (Header.hash h) = 32%nat /\
  length (Header.parentHash h) = 32%nat /\
  length (Header.stateRoot h) = 32%nat /\
  length (Header.receiptsRoot h) = 32%nat /\
  length (Header.transactionsRoot h) = 32%nat.

(** The value of a run of digits read from the left. *)
Definition digits_value (base : Z) (ds : list ascii) : Z :=
  fold_left (fun acc c => acc * base + digit_value c) ds 0.

(** One case of the lemma below: the prefix and the base are known. *)
Ltac prefixed_case Hus Hscan :=
  unfold int_base0;
  lazymatch goal with
  | |- context [skip_space ?s] => change (skip_space s) with s
  end;
  lazymatch goal with
  | |- context [strip_sign ?s] => change (strip_sign s) with (false, s)
  end;
  cbv beta iota; unfold int_magnitude;
  lazymatch goal with
  | |- context [detect_base (String ?a (String ?b ?r))] =>
      lazymatch type of Hscan with
      | scan_digits ?base _ _ _ _ = _ =>
          change (detect_base (String a (String b r))) with (base, false, r);
          cbv beta iota; change (is_power_of_two_base base) with true
      end
  end;
  cbn [starts_with_underscore andb negb]; rewrite Hus, Hscan;
  cbn [mbind result_bind Nat.eqb andb negb skip_space starts_with_underscore];
  rewrite ?Hus; reflexivity.

(** A header in the field domain, and one whose state root is a byte short. *)
Definition sample_header : Header.t :=
  Header.mk 18000000 1693066895 (repeat x11 32) (repeat x22 32)
            (repeat x33 32) (repeat x44 32) (repeat x55 32).

Definition short_state_header : Header.t :=
  Header.mk 18000000 1693066895 (repeat x11 32) (repeat x22 32)
            (repeat x33 31) (repeat x44 32) (repeat x55 32).

Definition other_state_header : Header.t :=
  Header.mk 18000000 1693066895 (repeat x11 32) (repeat x22 32)
            (repeat x34 32) (repeat x44 32) (repeat x55 32).

(** The sample header with another first byte in its state root. *)
Definition first_byte_header : Header.t :=
  Header.mk 18000000 1693066895 (repeat x11 32) (repeat x22 32)
            (xaa :: repeat x33 31) (repeat x44 32) (repeat x55 32).

(** The block requests of a trace, in order: which endpoint was asked for
    which reference. *)
Fixpoint block_requests (t : list event) : list (string * block_id) :=
  match t with
  | [] => []
  | AskBlock url id :: t' => (url, id) :: block_requests t'
  | _ :: t' => block_requests t'
  end.

Definition requests {A : Type} (m : prog A) : list (string * block_id) :=
  block_requests (fst m).

(** Two providers whose heads differ: "latest" is block 100 on the first and
    block 101 on the second; a height is served as asked by both. *)
Definition header_at (n : Z) : Header.t :=
  Header.mk n 1693066895 (repeat x11 32) (repeat x22 32) (repeat x33 32)
            (repeat x44 32) (repeat x55 32).

Definition node_a : Node :=
  {| is_connected := true;
     eth_chain_id := 1;
     eth_get_block := fun id =>
       match id with
       | Tag _ => Ok (header_at 100)
       | Height n => Ok (header_at n)
       end |}.

Definition node_b : Node :=
  {| is_connected := true;
     eth_chain_id := 1;
     eth_get_block := fun id =>
       match id with
       | Tag _ => Ok (header_at 101)
       | Height n => Ok (header_at n)
       end |}.

Definition two_providers (url : string) : Node :=
  if String.eqb url "https://a.example" then node_a else node_b.

Definition utc_text (t : Z) : result string := Ok "2023-08-26 16:21:35"%string.

Definition latest_args : Args :=
  {| rpc1 := "https://a.example"; rpc2 := Some "https://b.example"%string;
     block := "latest" |}.

Definition height_args : Args :=
  {| rpc1 := "https://a.example"; rpc2 := Some "https://b.example"%string;
     block := "100" |}.

(** The number of the bundle a fetch returns. *)
Definition resolved_height (m : prog Bundle.t) : result Z :=
  match snd m with
  | Ok b => Ok (Bundle.number b)
  | Raise e => Raise e
  end.

(** Worlds and command lines for the runs below: no provider answers; only
    the first one answers; the platform cannot format the time; a block
    argument that is neither a tag nor a number; no secondary endpoint. *)
Definition node_down : Node :=
  {| is_connected := false;
     eth_chain_id := 1;
     eth_get_block := fun _ => Raise ProviderError |}.

Definition no_provider (url : string) : Node := node_down.

Definition first_provider_only (url : string) : Node :=
  if String.eqb url "https://a.example" then node_a else node_down.

Definition broken_clock (t : Z) : result string := Raise OverflowError.

Definition bad_block_args : Args :=
  {| rpc1 := "https://a.example"; rpc2 := Some "https://b.example"%string;
     block := "newest" |}.

Definition primary_only_args : Args :=
  {| rpc1 := "https://a.example"; rpc2 := None; block := "100" |}.

(** A provider that has no block to serve. *)
Definition node_empty : Node :=
  {| is_connected := true;
     eth_chain_id := 1;
     eth_get_block := fun _ => Raise ProviderError |}.

Definition empty_provider (url : string) : Node := node_empty.

(** The sample header with one byte moved from the end of its hash to the
    front of its parent hash. *)
Definition shifted_header : Header.t :=
  Header.mk 18000000 1693066895 (repeat x11 31) (x11 :: repeat x22 32)
            (repeat x33 32) (repeat x44 32) (repeat x55 32).


(** A provider that serves one header under one chain ID, whatever the
    reference. *)
Definition node_serving (cid : Z) (h : Header.t) : Node :=
  {| is_connected := true;
     eth_chain_id := cid;
     eth_get_block := fun _ => Ok h |}.

(** How many bytes of a field of [n] bytes reach the preimage. *)
Definition kept (rel : hexbytes_release) (n : nat) : nat :=
  match rel with
  | Hexbytes0 => n
  | Hexbytes1 => Nat.pred n
  end.

(** * Properties *)

(** ** Keccak-256 against published digests *)

Example keccak256_empty :
  hexlify (Keccak.keccak256 []) =
  "c5d2460186f7233c927e7db2dcc703c0e500b653ca82273b7bfad8045d85a470"%string.
Proof. vm_compute. reflexivity. Qed.

Example keccak256_abc :
  hexlify (Keccak.keccak256 (bytes_of_string "abc")) =
  "4e03657aea45a94fc7d47ba826c8d667c0d1e6e33a64a036ec44f58fa12d6c45"%string.
Proof. vm_compute. reflexivity. Qed.

Example keccak256_transfer_topic :
  hexlify (Keccak.keccak256 (bytes_of_string "Transfer(address,address,uint256)")) =
  "ddf252ad1be2c89b69c2b068fc378daa952ba7f163c4a11628f55a4df523b3ef"%string.
Proof. vm_compute. reflexivity. Qed.

Example sha3_256_abc :
  hexlify (Keccak.sha3_256 (bytes_of_string "abc")) =
  "3a985da74fe225b2045c172d6bd390bd855f086e3e9d525b46bfe24511431532"%string.
Proof. vm_compute. reflexivity. Qed.

(** Two blocks: the 200-byte message of NIST's SHA3-256 example. *)
Example sha3_256_two_blocks :
  hexlify (Keccak.sha3_256 (repeat xa3 200)) =
  "79f38adec5c20307a98ef76e8324afbfd46cfd81b22e3973c65fa1bd9de31787"%string.
Proof. vm_compute. reflexivity. Qed.

(** ** Bytes, hexadecimal text and big-endian integers *)

Lemma Z_of_byte_range (b : byte) : 0 <= Z_of_byte b < 256.
Proof.
  unfold Z_of_byte. pose proof (Byte.to_N_bounded b) as H.
  split; [apply N2Z.is_nonneg|]. apply N.lt_succ_r in H.
  change 256 with (Z.of_N 256). apply N2Z.inj_lt. exact H.
Qed.

Lemma Z_of_byte_of_Z (z : Z) : Z_of_byte (byte_of_Z z) = z mod 256.
Proof.
  unfold Z_of_byte, byte_of_Z.
  assert (Hr : 0 <= z mod 256 < 256) by (apply Z.mod_pos_bound; lia).
  destruct (Byte.of_N (Z.to_N (z mod 256))) as [b|] eqn:E.
  - apply Byte.to_of_N in E. rewrite E. rewrite Z2N.id; lia.
  - apply Byte.of_N_None_iff in E.
    assert (Z.of_N 255 < Z.of_N (Z.to_N (z mod 256))) as H by (apply N2Z.inj_lt; exact E).
    rewrite Z2N.id in H; simpl in H; lia.
Qed.

Lemma byte_of_Z_of_byte (b : byte) : byte_of_Z (Z_of_byte b) = b.
Proof.
  unfold byte_of_Z. rewrite Z.mod_small by apply Z_of_byte_range.
  unfold Z_of_byte. rewrite N2Z.id, Byte.of_to_N. reflexivity.
Qed.

Lemma Z_of_byte_inj (a b : byte) : Z_of_byte a = Z_of_byte b -> a = b.
Proof.
  intros H. rewrite <- (byte_of_Z_of_byte a), <- (byte_of_Z_of_byte b).
  now rewrite H.
Qed.

(** One byte written as two digits reads back as that byte. *)
Lemma hex_pair_reads_back (b : byte) :
  let c := hex_digit (Z_of_byte b / 16) in
  let d := hex_digit (Z_of_byte b mod 16) in
  is_space c = false /\
  (digit_value c <? 16) && (digit_value d <? 16) = true /\
  byte_of_Z (16 * digit_value c + digit_value d) = b.
Proof. destruct b; vm_compute; auto. Qed.

Lemma fromhex_hexlify (bs : list byte) : fromhex (hexlify bs) = Ok bs.
Proof.
  induction bs as [|b bs IH]; [reflexivity|].
  destruct (hex_pair_reads_back b) as (Hs & Hd & Hb).
  cbn [hexlify fromhex]. rewrite Hs, Hd, IH. cbn. now rewrite Hb.
Qed.

Lemma fromhex_slice_hex (rel : hexbytes_release) (bs : list byte) :
  fromhex (slice_from 2 (HexBytes_hex rel bs)) = Ok (sliced rel bs).
Proof.
  destruct rel; cbn [HexBytes_hex sliced slice_from].
  - apply fromhex_hexlify.
  - destruct bs as [|b bs]; [reflexivity|]. cbn [hexlify slice_from tl].
    apply fromhex_hexlify.
Qed.

Lemma hexlify_inj (a b : list byte) : hexlify a = hexlify b -> a = b.
Proof.
  intros H. apply (f_equal fromhex) in H. rewrite !fromhex_hexlify in H.
  congruence.
Qed.

Lemma HexBytes_hex_inj (rel : hexbytes_release) (a b : list byte) :
  HexBytes_hex rel a = HexBytes_hex rel b -> a = b.
Proof.
  destruct rel; cbn [HexBytes_hex]; intros H.
  - apply hexlify_inj. congruence.
  - now apply hexlify_inj.
Qed.

Lemma le_bytes_length (k : nat) (n : Z) : length (le_bytes k n) = k.
Proof. revert n; induction k as [|k IH]; intros n; cbn; [|rewrite IH]; reflexivity. Qed.

Lemma le_value_le_bytes (k : nat) (n : Z) :
  0 <= n -> le_value (le_bytes k n) = n mod 256 ^ Z.of_nat k.
Proof.
  revert n; induction k as [|k IH]; intros n Hn.
  - cbn. now rewrite Z.mod_1_r.
  - cbn [le_bytes le_value]. rewrite Z_of_byte_of_Z, IH by (apply Z.div_pos; lia).
    rewrite Nat2Z.inj_succ, Z.pow_succ_r by lia.
    rewrite Z.rem_mul_r by lia. reflexivity.
Qed.

Lemma to_bytes_Ok (n : Z) (k : nat) :
  0 <= n < 256 ^ Z.of_nat k -> to_bytes n k = Ok (rev (le_bytes k n)).
Proof.
  intros [H0 H1]. unfold to_bytes.
  destruct (Z.ltb_spec n 0); [lia|].
  destruct (Z.leb_spec (256 ^ Z.of_nat k) n); [lia|]. reflexivity.
Qed.

Lemma to_bytes_Raise (n : Z) (k : nat) :
  ~ (0 <= n < 256 ^ Z.of_nat k) -> to_bytes n k = Raise OverflowError.
Proof.
  intros H. unfold to_bytes.
  destruct (Z.ltb_spec n 0); [reflexivity|].
  destruct (Z.leb_spec (256 ^ Z.of_nat k) n); [reflexivity|lia].
Qed.

Lemma to_bytes_inv (n : Z) (k : nat) (bs : list byte) :
  to_bytes n k = Ok bs ->
  0 <= n < 256 ^ Z.of_nat k /\ length bs = k /\ from_bytes bs = n.
Proof.
  unfold to_bytes. intros H.
  destruct (Z.ltb_spec n 0); [discriminate|].
  destruct (Z.leb_spec (256 ^ Z.of_nat k) n); [discriminate|].
  injection H as <-. split; [lia|]. split.
  - now rewrite length_rev, le_bytes_length.
  - unfold from_bytes. rewrite rev_involutive, le_value_le_bytes by lia.
    apply Z.mod_small. lia.
Qed.

Lemma rev_le_bytes_8 (n : Z) : rev (le_bytes 8 n) = big_endian8 n.
Proof.
  unfold big_endian8. cbn [le_bytes rev app map].
  rewrite !Z.div_div by lia. rewrite Z.div_1_r. reflexivity.
Qed.

Lemma to_bytes_8 (n : Z) : fits8 n -> to_bytes n 8 = Ok (big_endian8 n).
Proof.
  intros H. rewrite to_bytes_Ok by exact H. now rewrite rev_le_bytes_8.
Qed.

Lemma to_bytes_8_overflow (n : Z) : ~ fits8 n -> to_bytes n 8 = Raise OverflowError.
Proof. intros H. apply to_bytes_Raise. exact H. Qed.

Lemma big_endian8_length (n : Z) : length (big_endian8 n) = 8%nat.
Proof. reflexivity. Qed.

Lemma big_endian8_inj (n m : Z) :
  fits8 n -> fits8 m -> big_endian8 n = big_endian8 m -> n = m.
Proof.
  intros Hn Hm E.
  pose proof (to_bytes_8 n Hn) as Tn. pose proof (to_bytes_8 m Hm) as Tm.
  apply to_bytes_inv in Tn as (_ & _ & <-).
  apply to_bytes_inv in Tm as (_ & _ & <-).
  now rewrite E.
Qed.

Lemma fits8_dec (n : Z) : {fits8 n} + {~ fits8 n}.
Proof.
  unfold fits8.
  destruct (Z_le_dec 0 n); [|right; lia].
  destruct (Z_lt_dec n (2 ^ 64)); [left; lia|right; lia].
Qed.

Lemma keccak256_length (m : list byte) : length (Keccak.keccak256 m) = 32%nat.
Proof.
  unfold Keccak.keccak256, Keccak.sponge256.
  destruct (Keccak.absorb _ _ _) as [s pos].
  cbn [seq flat_map]. rewrite !length_app.
  unfold Keccak.lane_bytes. rewrite !length_map, !length_seq. reflexivity.
Qed.

(** The preimage in terms of what the slices keep of each field. *)
Lemma fields_Ok (rel : hexbytes_release) (cid : Z) (h : Header.t) :
  fits8 cid -> fits8 (Header.number h) -> fits8 (Header.timestamp h) ->
  fields rel cid h =
  Ok (big_endian8 cid ++ big_endian8 (Header.number h)
        ++ sliced rel (Header.hash h) ++ sliced rel (Header.parentHash h)
        ++ sliced rel (Header.stateRoot h) ++ sliced rel (Header.receiptsRoot h)
        ++ sliced rel (Header.transactionsRoot h)
        ++ big_endian8 (Header.timestamp h)).
Proof.
  intros Hc Hn Ht. unfold fields.
  rewrite !to_bytes_8 by assumption. rewrite !fromhex_slice_hex. reflexivity.
Qed.

Lemma fields_Raise (rel : hexbytes_release) (cid : Z) (h : Header.t) :
  ~ (fits8 cid /\ fits8 (Header.number h) /\ fits8 (Header.timestamp h)) ->
  fields rel cid h = Raise OverflowError.
Proof.
  intros H. unfold fields.
  destruct (fits8_dec cid) as [Hc|Hc];
    [rewrite (to_bytes_8 _ Hc)|now rewrite (to_bytes_8_overflow _ Hc)].
  destruct (fits8_dec (Header.number h)) as [Hn|Hn];
    [rewrite (to_bytes_8 _ Hn)|now rewrite (to_bytes_8_overflow _ Hn)].
  destruct (fits8_dec (Header.timestamp h)) as [Ht|Ht]; [tauto|].
  rewrite (to_bytes_8_overflow _ Ht), !fromhex_slice_hex. reflexivity.
Qed.

(** ** Decimal text and [int(s, 0)] *)

(** A character that counts as a digit is neither white space, nor a sign,
    nor an underscore. *)
Lemma digit_char_plain (c : ascii) :
  digit_value c < 37 ->
  is_space c = false /\ Ascii.eqb c "+" = false /\ Ascii.eqb c "-" = false /\
  Ascii.eqb c "_" = false.
Proof.
  intros H.
  destruct c as [[] [] [] [] [] [] [] []]; vm_compute in H |- *;
    first [discriminate H | auto].
Qed.

(** A decimal digit is not the first letter of a tag, in either case. *)
Lemma decimal_char_not_letter (c : ascii) :
  digit_value c < 10 ->
  Ascii.eqb (lower_char c) "l" = false /\ Ascii.eqb (lower_char c) "f" = false /\
  Ascii.eqb (lower_char c) "s" = false /\ Ascii.eqb (lower_char c) "p" = false.
Proof.
  intros H.
  destruct c as [[] [] [] [] [] [] [] []]; vm_compute in H |- *;
    first [discriminate H | auto].
Qed.

Lemma is_tag_first_char (c : ascii) (r : string) :
  Ascii.eqb c "l" = false -> Ascii.eqb c "f" = false ->
  Ascii.eqb c "s" = false -> Ascii.eqb c "p" = false ->
  is_tag (String c r) = false.
Proof.
  intros Hl Hf Hs Hp. unfold is_tag, tags. cbn [existsb String.eqb].
  now rewrite Hl, Hf, Hs, Hp.
Qed.

Lemma scan_digits_all (base : Z) (ds : list ascii) (acc : Z) (count : nat) :
  base <= 37 ->
  Forall (fun c => digit_value c < base) ds ->
  scan_digits base false acc count (string_of_list_ascii ds) =
  Ok (fold_left (fun a c => a * base + digit_value c) ds acc,
      (count + length ds)%nat, EmptyString).
Proof.
  intros Hb Hds. revert acc count.
  induction Hds as [|c ds Hc _ IH]; intros acc count.
  - cbn. now rewrite Nat.add_0_r.
  - cbn [string_of_list_ascii scan_digits fold_left length].
    destruct (digit_char_plain c ltac:(lia)) as (_ & _ & _ & ->).
    destruct (Z.ltb_spec (digit_value c) base); [|lia].
    rewrite IH. now rewrite Nat.add_succ_r.
Qed.

Lemma decimal_digit_value (d : Z) :
  0 <= d < 10 -> digit_value (decimal_digit d) = d.
Proof.
  intros H. assert (E : d = Z.of_nat (Z.to_nat d)) by lia. rewrite E.
  assert (Hk : (Z.to_nat d < 10)%nat) by lia. revert Hk.
  generalize (Z.to_nat d). intros k Hk.
  do 10 (destruct k as [|k]; [reflexivity|]). lia.
Qed.

Lemma decimal_digit_zero (d : Z) :
  0 <= d < 10 -> Ascii.eqb (decimal_digit d) "0" = true -> d = 0.
Proof.
  intros H E. apply Ascii.eqb_eq in E.
  rewrite <- (decimal_digit_value d H), E. reflexivity.
Qed.

Lemma decimal_digits_length (fuel k : nat) (n : Z) :
  0 <= n < 10 ^ Z.of_nat k -> (0 < k)%nat ->
  (length (decimal_digits fuel n) <= k)%nat.
Proof.
  revert k n. induction fuel as [|f IH]; intros k n Hn Hk; cbn; [lia|].
  destruct (Z.ltb_spec n 10); [cbn; lia|].
  rewrite length_app. cbn [length].
  destruct k as [|[|k]]; [lia| |].
  - change (10 ^ Z.of_nat 1) with 10 in Hn. lia.
  - assert (length (decimal_digits f (n / 10)) <= S k)%nat; [|lia].
    apply IH; [|lia]. split; [apply Z.div_pos; lia|].
    apply Z.div_lt_upper_bound; [lia|].
    rewrite <- Z.pow_succ_r by lia. rewrite <- Nat2Z.inj_succ. lia.
Qed.

(** With enough fuel the digits are decimal digits, they are worth [n], and
    the first one is 0 only for [n = 0]. *)
Lemma decimal_digits_spec (fuel : nat) (n : Z) :
  (0 < fuel)%nat -> 0 <= n < 10 ^ Z.of_nat fuel ->
  Forall (fun c => digit_value c < 10) (decimal_digits fuel n) /\
  digits_value 10 (decimal_digits fuel n) = n /\
  exists c ds, decimal_digits fuel n = c :: ds /\
               (Ascii.eqb c "0" = true -> n = 0 /\ ds = []).
Proof.
  revert n. induction fuel as [|f IH]; intros n Hf Hn; [lia|].
  cbn [decimal_digits]. destruct (Z.ltb_spec n 10) as [Hlt|Hge].
  - split; [|split].
    + constructor; [|constructor]. rewrite decimal_digit_value; lia.
    + unfold digits_value. cbn. rewrite decimal_digit_value; lia.
    + exists (decimal_digit n), []. split; [reflexivity|]. intros E.
      split; [|reflexivity]. apply decimal_digit_zero; [lia|exact E].
  - assert (0 <= n / 10 < 10 ^ Z.of_nat f) as Hq.
    { split; [apply Z.div_pos; lia|]. apply Z.div_lt_upper_bound; [lia|].
      rewrite <- Z.pow_succ_r by lia. rewrite <- Nat2Z.inj_succ. lia. }
    assert (0 < f)%nat as Hf'.
    { destruct f; [|lia]. change (10 ^ Z.of_nat 0) with 1 in Hq.
      assert (n / 10 = 0) as Hq0 by lia.
      apply Z.div_small_iff in Hq0; lia. }
    destruct (IH _ Hf' Hq) as (Hall & Hval & c & ds & Hds & Hzero).
    assert (0 <= n mod 10 < 10) as Hr by (apply Z.mod_pos_bound; lia).
    split; [|split].
    + apply Forall_app. split; [exact Hall|].
      constructor; [|constructor]. rewrite decimal_digit_value; lia.
    + unfold digits_value in *. rewrite fold_left_app. cbn [fold_left].
      rewrite Hval, decimal_digit_value by lia.
      rewrite (Z.div_mod n 10) at 3 by lia. lia.
    + exists c, (ds ++ [decimal_digit (n mod 10)]). split.
      * now rewrite Hds.
      * intros E. destruct (Hzero E) as [Hq0 _].
        apply Z.div_small_iff in Hq0; lia.
Qed.

Lemma decimal_fuel (n : Z) :
  0 <= n -> 0 <= n < 10 ^ Z.of_nat (S (Z.to_nat (Z.log2 n))).
Proof.
  intros Hn. split; [exact Hn|].
  rewrite Nat2Z.inj_succ, Z2Nat.id by apply Z.log2_nonneg.
  destruct (Z.eq_dec n 0) as [->|Hne]; [reflexivity|].
  pose proof (Z.log2_spec n ltac:(lia)) as [_ Hlt].
  eapply Z.lt_le_trans; [exact Hlt|].
  apply Z.pow_le_mono_l. pose proof (Z.log2_nonneg n). lia.
Qed.

Lemma int_magnitude_decimal (negative : bool) (c : ascii) (ds : list ascii) :
  Forall (fun c => digit_value c < 10) (c :: ds) ->
  (Ascii.eqb c "0" = true -> ds = []) ->
  (length (c :: ds) <= max_str_digits)%nat ->
  int_magnitude negative (string_of_list_ascii (c :: ds)) =
  Ok (if negative then - digits_value 10 (c :: ds) else digits_value 10 (c :: ds)).
Proof.
  intros Hall Hzero Hlen.
  assert (Hc : digit_value c < 10) by (inversion Hall; assumption).
  destruct (digit_char_plain c ltac:(lia)) as (_ & _ & _ & Hus).
  unfold int_magnitude. cbn [string_of_list_ascii detect_base].
  destruct (Ascii.eqb c "0") eqn:E0.
  - rewrite (Hzero eq_refl). apply Ascii.eqb_eq in E0. subst c.
    destruct negative; reflexivity.
  - cbn [negb is_power_of_two_base Z.eqb orb andb starts_with_underscore].
    change (is_power_of_two_base 10) with false. cbn [andb negb].
    cbn [starts_with_underscore]. rewrite Hus.
    change (String c (string_of_list_ascii ds))
      with (string_of_list_ascii (c :: ds)).
    rewrite (scan_digits_all 10 (c :: ds) 0 0 ltac:(lia) Hall).
    cbn [mbind result_bind Nat.add]. cbn [length] in *.
    destruct (Nat.eqb_spec (S (length ds)) 0); [lia|].
    destruct (Nat.ltb_spec max_str_digits (S (length ds))); [lia|].
    reflexivity.
Qed.

(** The decimal text of a non-negative integer reads back, with or without
    a minus sign in front. *)
Lemma int_magnitude_of_decimal (negative : bool) (n : Z) :
  0 <= n -> (length (decimal n) <= max_str_digits)%nat ->
  int_magnitude negative (string_of_list_ascii (decimal n)) =
  Ok (if negative then - n else n).
Proof.
  intros Hn Hlen. unfold decimal in *.
  destruct (decimal_digits_spec _ n (Nat.lt_0_succ _) (decimal_fuel n Hn))
    as (Hall & Hval & c & ds & Hds & Hzero).
  rewrite Hds in *. rewrite int_magnitude_decimal; try assumption.
  - now rewrite Hval.
  - intros E. now destruct (Hzero E).
Qed.

Lemma decimal_first_char (n : Z) :
  0 <= n -> exists c ds, decimal n = c :: ds /\ digit_value c < 10.
Proof.
  intros Hn. unfold decimal.
  destruct (decimal_digits_spec _ n (Nat.lt_0_succ _) (decimal_fuel n Hn))
    as (Hall & _ & c & ds & Hds & _).
  exists c, ds. split; [exact Hds|]. rewrite Hds in Hall. now inversion Hall.
Qed.

Lemma decimal_length (n : Z) (k : nat) :
  0 <= n < 10 ^ Z.of_nat k -> (0 < k)%nat -> (length (decimal n) <= k)%nat.
Proof. intros Hn Hk. unfold decimal. now apply decimal_digits_length. Qed.

Lemma str_int_Ok (n : Z) :
  Z.abs n < 10 ^ Z.of_nat max_str_digits ->
  str_int n =
  Ok (string_of_list_ascii
        (if n <? 0 then "-"%char :: decimal (Z.abs n) else decimal (Z.abs n))).
Proof.
  intros Hn. unfold str_int.
  pose proof (decimal_length (Z.abs n) max_str_digits
                ltac:(split; [apply Z.abs_nonneg|exact Hn])
                ltac:(unfold max_str_digits; lia)) as Hlen.
  destruct (Nat.ltb_spec max_str_digits (length (decimal (Z.abs n)))); [lia|].
  reflexivity.
Qed.

(** What [str] writes, [int(_, 0)] reads back. *)
Lemma int_base0_str_int (n : Z) (text : string) :
  str_int n = Ok text -> int_base0 text = Ok n.
Proof.
  unfold str_int. intros H.
  destruct (Nat.ltb_spec max_str_digits (length (decimal (Z.abs n))))
    as [|Hlen]; [discriminate|].
  injection H as <-.
  pose proof (Z.abs_nonneg n) as Habs.
  destruct (decimal_first_char _ Habs) as (c & ds & Hds & Hc).
  destruct (digit_char_plain c ltac:(lia)) as (Hsp & Hplus & Hminus & _).
  unfold int_base0. destruct (Z.ltb_spec n 0) as [Hneg|Hpos].
  - cbn [string_of_list_ascii skip_space strip_sign].
    change (is_space "-") with false. cbn [strip_sign].
    change (Ascii.eqb "-" "+") with false. change (Ascii.eqb "-" "-") with true.
    cbn iota. rewrite int_magnitude_of_decimal by assumption.
    f_equal. lia.
  - rewrite Hds. cbn [string_of_list_ascii skip_space]. rewrite Hsp.
    cbn [strip_sign]. rewrite Hplus, Hminus.
    change (String c (string_of_list_ascii ds))
      with (string_of_list_ascii (c :: ds)). rewrite <- Hds.
    rewrite int_magnitude_of_decimal by assumption. f_equal. lia.
Qed.

Lemma is_tag_str_int (n : Z) (text : string) :
  str_int n = Ok text -> is_tag (lower text) = false.
Proof.
  unfold str_int. intros H.
  destruct (Nat.ltb_spec max_str_digits (length (decimal (Z.abs n))));
    [discriminate|].
  injection H as <-.
  destruct (decimal_first_char _ (Z.abs_nonneg n)) as (c & ds & Hds & Hc).
  destruct (Z.ltb_spec n 0).
  - reflexivity.
  - rewrite Hds. cbn [string_of_list_ascii lower].
    destruct (decimal_char_not_letter c Hc) as (Hl & Hf & Hs & Hp).
    now apply is_tag_first_char.
Qed.

Lemma is_tag_In (s : string) : is_tag s = true <-> In s tags.
Proof.
  unfold is_tag. rewrite existsb_exists. split.
  - intros (t & Ht & E). apply String.eqb_eq in E. now subst.
  - intros H. exists s. split; [exact H|apply String.eqb_refl].
Qed.

Lemma scan_digits_raises_ValueError (base : Z) (s : string) :
  forall prev acc count e,
    scan_digits base prev acc count s = Raise e -> e = ValueError.
Proof.
  induction s as [|c r IH]; intros prev acc count e; cbn [scan_digits].
  - destruct prev; congruence.
  - destruct (Ascii.eqb c "_").
    + destruct prev; [congruence|apply IH].
    + destruct (digit_value c <? base); [apply IH|].
      destruct prev; congruence.
Qed.

Lemma int_magnitude_raises_ValueError (negative : bool) (s : string) (e : exn) :
  int_magnitude negative s = Raise e -> e = ValueError.
Proof.
  unfold int_magnitude.
  destruct (detect_base s) as [[base nonzero] s1].
  match goal with
  | |- context [scan_digits base false 0 0 ?s] => generalize s; intros s2
  end.
  destruct (starts_with_underscore s2); [congruence|].
  destruct (scan_digits base false 0 0 s2) as [[[value count] rest]|e'] eqn:E.
  - cbn [mbind result_bind].
    repeat match goal with
           | |- context [if ?b then _ else _] => destruct b
           | |- context [match skip_space ?r with _ => _ end] =>
               destruct (skip_space r)
           end; congruence.
  - cbn [mbind result_bind]. intros H. injection H as <-.
    eapply scan_digits_raises_ValueError; exact E.
Qed.

Lemma parse_block_arg_raises_ValueError (arg : string) (e : exn) :
  parse_block_arg arg = Raise e -> e = ValueError.
Proof.
  unfold parse_block_arg. destruct (is_tag (lower arg)); [discriminate|].
  unfold int_base0. destruct (strip_sign (skip_space arg)) as [negative s].
  destruct (int_magnitude negative s) as [n|e'] eqn:E; cbn; [discriminate|].
  intros H. injection H as <-. eapply int_magnitude_raises_ValueError; exact E.
Qed.

(** A literal with a base prefix: 0x, 0o or 0b and then digits of that base. *)
Lemma int_base0_prefixed (p : ascii) (base : Z) (ds : list ascii) :
  In (p, base) [("x"%char, 16); ("X"%char, 16); ("o"%char, 8); ("O"%char, 8);
                ("b"%char, 2); ("B"%char, 2)] ->
  ds <> [] -> Forall (fun c => digit_value c < base) ds ->
  int_base0 (String "0" (String p (string_of_list_ascii ds))) =
  Ok (digits_value base ds).
Proof.
  intros Hp Hne Hall.
  destruct ds as [|c ds]; [congruence|].
  assert (Hb : base <= 16).
  { cbn in Hp. repeat (destruct Hp as [Hp|Hp]; [injection Hp as <- <-; lia|]).
    destruct Hp. }
  assert (Hc : digit_value c < base) by (inversion Hall; assumption).
  destruct (digit_char_plain c ltac:(lia)) as (_ & _ & _ & Hus).
  assert (Hscan := scan_digits_all base (c :: ds) 0 0 ltac:(lia) Hall).
  cbn [string_of_list_ascii] in Hscan |- *.
  cbn [length Nat.add] in Hscan. cbn in Hp.
  destruct Hp as [Hp|[Hp|[Hp|[Hp|[Hp|[Hp|[]]]]]]];
    injection Hp as <- <-; prefixed_case Hus Hscan.
Qed.

(** ** The network label *)

(** C8.  Network-label resolution never fails on a chain ID (any integer of
    at most 4300 decimal digits, which every 64-bit chain ID is): a chain ID
    in the [NETWORKS] table yields the table's label, 1 yields "Ethereum
    Mainnet", and any other chain ID yields the fallback label "Unknown (chain
    ID <digits>)" whose digits are the decimal text of the chain ID and read
    back as that chain ID. *)
Theorem network_name_total (cid : Z) :
  Z.abs cid < 10 ^ Z.of_nat max_str_digits ->
  exists digits : string,
    str_int cid = Ok digits /\
    int_base0 digits = Ok cid /\
    network_name cid =
      Ok (match NETWORKS !! cid with
          | Some label => label
          | None => ("Unknown (chain ID " +:+ digits +:+ ")")%string
          end) /\
    (cid = 1 -> network_name cid = Ok "Ethereum Mainnet"%string).
Proof.
  intros Hcid. pose proof (str_int_Ok cid Hcid) as Hstr.
  eexists. split; [exact Hstr|]. split; [exact (int_base0_str_int _ _ Hstr)|].
  split.
  - unfold network_name. rewrite Hstr. cbn [mbind result_bind].
    destruct (NETWORKS !! cid); reflexivity.
  - intros ->. reflexivity.
Qed.

Lemma network_name_total_witness :
  Z.abs 5 < 10 ^ Z.of_nat max_str_digits /\
  exists digits : string,
    str_int 5 = Ok digits /\
    int_base0 digits = Ok 5 /\
    network_name 5 =
      Ok (match NETWORKS !! 5 with
          | Some label => label
          | None => ("Unknown (chain ID " +:+ digits +:+ ")")%string
          end) /\
    (5 = 1 -> network_name 5 = Ok "Ethereum Mainnet"%string).
Proof.
  assert (H : Z.abs 5 < 10 ^ Z.of_nat max_str_digits) by (vm_compute; reflexivity).
  split; [exact H|]. exact (network_name_total 5 H).
Defined.

(** ** Block references *)

(** C10.  Parsing is case-insensitive for the tags and detects the base of a
    number: an input whose lowercase form is one of latest, finalized, safe,
    pending returns that lowercase tag (so "LATEST" returns "latest"), and a
    numeral with a 0x, 0o or 0b prefix is read in base 16, 8 or 2 (so "0x10"
    is the height 16). *)
Theorem parse_block_arg_case_and_base :
  (forall arg : string,
      In (lower arg) tags -> parse_block_arg arg = Ok (Tag (lower arg))) /\
  parse_block_arg "LATEST" = Ok (Tag "latest") /\
  (forall (p : ascii) (base : Z) (ds : list ascii),
      In (p, base) [("x"%char, 16); ("X"%char, 16); ("o"%char, 8);
                    ("O"%char, 8); ("b"%char, 2); ("B"%char, 2)] ->
      ds <> [] -> Forall (fun c => digit_value c < base) ds ->
      parse_block_arg (String "0" (String p (string_of_list_ascii ds))) =
      Ok (Height (digits_value base ds))) /\
  parse_block_arg "0x10" = Ok (Height 16).
Proof.
  split; [|split; [|split]].
  - intros arg H. unfold parse_block_arg.
    apply is_tag_In in H. now rewrite H.
  - reflexivity.
  - intros p base ds Hp Hne Hall. unfold parse_block_arg.
    cbn [lower]. change (lower_char "0") with "0"%char.
    rewrite is_tag_first_char by reflexivity.
    rewrite (int_base0_prefixed p base ds Hp Hne Hall). reflexivity.
  - reflexivity.
Qed.

(** C4, the input that the claim as stated gets wrong: the negative integer
    -5 is not refused, it is returned as the height -5. *)
Lemma parse_block_arg_accepts_negative :
  parse_block_arg "-5" = Ok (Height (-5)) /\
  parse_block_arg "-5" <> Raise ValueError.
Proof. split; [reflexivity|discriminate]. Qed.

(** C4, amended.  Parsing accepts an input exactly when its lowercase form is
    one of the four tags or [int(arg, 0)] reads it as an integer; every other
    input fails, with [ValueError]; and the integers read include the
    negative ones: the decimal text of any integer, negative or not, is
    accepted and returned as that height. *)
Theorem parse_block_arg_accepts :
  (forall arg : string,
      (exists id, parse_block_arg arg = Ok id) <->
      (In (lower arg) tags \/ exists n, int_base0 arg = Ok n)) /\
  (forall (arg : string) (e : exn),
      parse_block_arg arg = Raise e -> e = ValueError) /\
  (forall (n : Z) (text : string),
      str_int n = Ok text -> parse_block_arg text = Ok (Height n)).
Proof.
  split; [|split].
  - intros arg. unfold parse_block_arg.
    destruct (is_tag (lower arg)) eqn:E.
    + split; [intros _; left; now apply is_tag_In|intros _; eauto].
    + split.
      * intros [id H]. right.
        destruct (int_base0 arg) as [n|e]; [eauto|discriminate].
      * intros [H|[n H]].
        -- apply is_tag_In in H. congruence.
        -- rewrite H. cbn. eauto.
  - exact parse_block_arg_raises_ValueError.
  - intros n text H. unfold parse_block_arg.
    rewrite (is_tag_str_int _ _ H), (int_base0_str_int _ _ H). reflexivity.
Qed.

(** ** The comparison *)

(** C6.  The verdict of the comparison is the conjunction of the eight
    per-field booleans, it holds exactly when all eight fields of the two
    bundles are equal, and it decides which verdict line [compare] prints
    after the eight match lines. *)
Theorem sound_is_conjunction (a b : Bundle.t) :
  let r := comparison a b in
  sound r = same_chain r && same_num r && same_hash r && same_parent r
            && same_state r && same_receipts r && same_txroot r
            && same_commit r /\
  (sound r = true <->
   Bundle.chain_id a = Bundle.chain_id b /\
   Bundle.number a = Bundle.number b /\
   Bundle.hash a = Bundle.hash b /\
   Bundle.parentHash a = Bundle.parentHash b /\
   Bundle.stateRoot a = Bundle.stateRoot b /\
   Bundle.receiptsRoot a = Bundle.receiptsRoot b /\
   Bundle.transactionsRoot a = Bundle.transactionsRoot b /\
   Bundle.commitment a = Bundle.commitment b) /\
  compare a b =
    ([Print (MatchLine "Chain IDs match" (same_chain r));
      Print (MatchLine "Block numbers match" (same_num r));
      Print (MatchLine "Block hashes match" (same_hash r));
      Print (MatchLine "Parent hashes match" (same_parent r));
      Print (MatchLine "stateRoot matches" (same_state r));
      Print (MatchLine "receiptsRoot matches" (same_receipts r));
      Print (MatchLine "txRoot matches" (same_txroot r));
      Print (MatchLine "Commitments match" (same_commit r));
      Print (if sound r then SoundnessConfirmed else InconsistencyDetected)],
     Ok tt).
Proof.
  intros r. split; [|split].
  - unfold sound, all. cbn [forallb id].
    rewrite andb_true_r, !andb_assoc. reflexivity.
  - unfold sound, all. cbn [forallb id]. subst r. cbn [comparison same_chain
      same_num same_hash same_parent same_state same_receipts same_txroot
      same_commit].
    rewrite !andb_true_iff, !Z.eqb_eq, !String.eqb_eq. tauto.
  - unfold compare. fold r. destruct (sound r); reflexivity.
Qed.

(** ** The commitment *)

Lemma sample_in_field_domain : in_field_domain 1 sample_header.
Proof. unfold in_field_domain, fits8. cbn. repeat split; lia. Qed.

Lemma header_commitment_of_fields (rel : hexbytes_release) (cid : Z)
      (h : Header.t) (preimage : list byte) :
  fields rel cid h = Ok preimage ->
  header_commitment rel cid h =
  Ok ("0x" +:+ HexBytes_hex rel (Keccak.keccak256 preimage))%string.
Proof. intros H. unfold header_commitment. now rewrite H. Qed.

(** On the field domain the preimage is the plain concatenation, 184 bytes
    long, when [hex()] writes the 0x prefix. *)
Lemma fields_on_domain (cid : Z) (h : Header.t) :
  in_field_domain cid h ->
  length (big_endian8 cid ++ big_endian8 (Header.number h) ++ Header.hash h
            ++ Header.parentHash h ++ Header.stateRoot h
            ++ Header.receiptsRoot h ++ Header.transactionsRoot h
            ++ big_endian8 (Header.timestamp h)) = 184%nat /\
  fields Hexbytes0 cid h =
  Ok (big_endian8 cid ++ big_endian8 (Header.number h) ++ Header.hash h
        ++ Header.parentHash h ++ Header.stateRoot h
        ++ Header.receiptsRoot h ++ Header.transactionsRoot h
        ++ big_endian8 (Header.timestamp h)).
Proof.
  intros (Hc & Hn & Ht & H1 & H2 & H3 & H4 & H5). split.
  - rewrite !length_app, !big_endian8_length.
    rewrite H1, H2, H3, H4, H5. reflexivity.
  - now rewrite fields_Ok.
Qed.

(** X16.  When [hex()] writes the 0x prefix (hexbytes before 1.0), which the
    [[2:]] slices of the source take off: for a chain ID, number and
    timestamp of 8 unsigned bytes and five hash-like fields of exactly 32
    bytes, the preimage is the 184-byte concatenation chainId || number ||
    hash || parentHash || stateRoot || receiptsRoot || transactionsRoot ||
    timestamp, the integers as 8 big-endian zero-padded bytes, nothing in
    between, and the commitment is 0x followed by the 0x-prefixed
    hexadecimal text of the 32-byte Keccak-256 digest of that preimage. *)
Theorem header_commitment_keccak256_of_184_bytes (cid : Z) (h : Header.t) :
  in_field_domain cid h ->
  let preimage :=
    big_endian8 cid ++ big_endian8 (Header.number h) ++ Header.hash h
      ++ Header.parentHash h ++ Header.stateRoot h ++ Header.receiptsRoot h
      ++ Header.transactionsRoot h ++ big_endian8 (Header.timestamp h) in
  length preimage = 184%nat /\
  fields Hexbytes0 cid h = Ok preimage /\
  length (Keccak.keccak256 preimage) = 32%nat /\
  header_commitment Hexbytes0 cid h =
  Ok ("0x" +:+ HexBytes_hex Hexbytes0 (Keccak.keccak256 preimage))%string.
Proof.
  intros D preimage.
  destruct (fields_on_domain cid h D)
    as (Hlen & Hf).
  split; [exact Hlen|]. split; [exact Hf|]. split.
  - apply keccak256_length.
  - now apply header_commitment_of_fields.
Qed.

Lemma header_commitment_keccak256_of_184_bytes_witness :
  in_field_domain 1 sample_header /\
  let preimage :=
    big_endian8 1 ++ big_endian8 (Header.number sample_header)
      ++ Header.hash sample_header ++ Header.parentHash sample_header
      ++ Header.stateRoot sample_header ++ Header.receiptsRoot sample_header
      ++ Header.transactionsRoot sample_header
      ++ big_endian8 (Header.timestamp sample_header) in
  length preimage = 184%nat /\
  fields Hexbytes0 1 sample_header = Ok preimage /\
  length (Keccak.keccak256 preimage) = 32%nat /\
  header_commitment Hexbytes0 1 sample_header =
  Ok ("0x" +:+ HexBytes_hex Hexbytes0 (Keccak.keccak256 preimage))%string.
Proof.
  split; [exact sample_in_field_domain|].
  exact (header_commitment_keccak256_of_184_bytes 1 sample_header
           sample_in_field_domain).
Defined.

(** C3, the input that the claim as stated gets wrong: a state root of 31
    bytes is not refused, a digest comes out (under either hexbytes
    release). *)
Lemma header_commitment_takes_short_field :
  length (Header.stateRoot short_state_header) = 31%nat /\
  header_commitment Hexbytes0 1 short_state_header =
  Ok "0x0x3a705e5e882940982d972583b42bef081eba31dbc12d3360e2d62c1dd4f90c9c"%string /\
  header_commitment Hexbytes1 1 short_state_header =
  Ok "0xbc3643257aa9d8e4ef6047e3c13cf04f9ce00fa0ed473f439f27f48661dccb8f"%string.
Proof. vm_compute. repeat split. Qed.

(** C3, amended.  Commitment construction fails, with [OverflowError],
    exactly when the chain ID, the number or the timestamp is outside the
    range of 8 unsigned bytes; the lengths of the five hash-like fields are
    not looked at, and whenever the three integers are in range a digest is
    produced. *)
Theorem header_commitment_fails_on_overflow_only
        (rel : hexbytes_release) (cid : Z) (h : Header.t) :
  (fits8 cid /\ fits8 (Header.number h) /\ fits8 (Header.timestamp h) ->
   exists preimage,
     fields rel cid h = Ok preimage /\
     header_commitment rel cid h =
     Ok ("0x" +:+ HexBytes_hex rel (Keccak.keccak256 preimage))%string) /\
  (~ (fits8 cid /\ fits8 (Header.number h) /\ fits8 (Header.timestamp h)) ->
   header_commitment rel cid h = Raise OverflowError).
Proof.
  split.
  - intros (Hc & Hn & Ht). eexists. split; [now apply fields_Ok|].
    apply header_commitment_of_fields. now apply fields_Ok.
  - intros H. unfold header_commitment. now rewrite fields_Raise.
Qed.

(** X17.  When [hex()] writes the 0x prefix (hexbytes before 1.0), the
    preimage encoding is injective on the field domain: two inputs in the
    domain that differ in the chain ID or in any header field have
    preimages, both 184 bytes long, that differ. *)
Theorem fields_injective (cid cid' : Z) (h h' : Header.t) :
  in_field_domain cid h -> in_field_domain cid' h' ->
  cid <> cid' \/ h <> h' ->
  exists p p',
    fields Hexbytes0 cid h = Ok p /\ fields Hexbytes0 cid' h' = Ok p' /\
    length p = 184%nat /\ length p' = 184%nat /\ p <> p'.
Proof.
  intros D D' Hdiff.
  destruct (fields_on_domain cid h D)
    as (Hlen & Hf).
  destruct (fields_on_domain cid' h' D')
    as (Hlen' & Hf').
  do 2 eexists. split; [exact Hf|]. split; [exact Hf'|].
  split; [exact Hlen|]. split; [exact Hlen'|].
  intros E.
  destruct D as (Hc & Hn & Ht & H1 & H2 & H3 & H4 & H5).
  destruct D' as (Hc' & Hn' & Ht' & H1' & H2' & H3' & H4' & H5').
  apply app_inj_1 in E as [Ec E]; [|reflexivity].
  apply app_inj_1 in E as [En E]; [|reflexivity].
  apply app_inj_1 in E as [E1 E]; [|congruence].
  apply app_inj_1 in E as [E2 E]; [|congruence].
  apply app_inj_1 in E as [E3 E]; [|congruence].
  apply app_inj_1 in E as [E4 E]; [|congruence].
  apply app_inj_1 in E as [E5 Et]; [|congruence].
  apply big_endian8_inj in Ec, En, Et; try assumption.
  destruct Hdiff as [Hd|Hd]; [congruence|].
  apply Hd. destruct h, h'. cbn in *. congruence.
Qed.

Lemma other_in_field_domain : in_field_domain 1 other_state_header.
Proof. unfold in_field_domain, fits8. cbn. repeat split; lia. Qed.

Lemma fields_injective_witness :
  in_field_domain 1 sample_header /\ in_field_domain 1 other_state_header /\
  (1 <> 1 \/ sample_header <> other_state_header) /\
  exists p p',
    fields Hexbytes0 1 sample_header = Ok p /\
    fields Hexbytes0 1 other_state_header = Ok p' /\
    length p = 184%nat /\ length p' = 184%nat /\ p <> p'.
Proof.
  assert (Hd : 1 <> 1 \/ sample_header <> other_state_header)
    by (right; intros E; apply (f_equal Header.stateRoot) in E;
        vm_compute in E; discriminate E).
  split; [exact sample_in_field_domain|].
  split; [exact other_in_field_domain|]. split; [exact Hd|].
  exact (fields_injective 1 1 sample_header other_state_header
           sample_in_field_domain other_in_field_domain Hd).
Defined.

Lemma fits8_printable (n : Z) : fits8 n -> Z.abs n < 10 ^ Z.of_nat max_str_digits.
Proof.
  intros [H0 H1]. rewrite Z.abs_eq by exact H0.
  eapply Z.lt_trans; [exact H1|]. vm_compute. reflexivity.
Qed.

Lemma network_name_Ok (cid : Z) :
  Z.abs cid < 10 ^ Z.of_nat max_str_digits ->
  exists name, network_name cid = Ok name.
Proof.
  intros H. unfold network_name. rewrite (str_int_Ok cid H).
  cbn [mbind result_bind]. eauto.
Qed.

(** What a fetch yields when the node serves header [h] and chain ID [cid],
    both within the range of the commitment's integers. *)
Lemma fetch_header_bundle_Ok (rel : hexbytes_release) (w3 : Web3)
      (id : block_id) (h : Header.t) (commitment : string) :
  eth_get_block (node w3) id = Ok h ->
  fits8 (eth_chain_id (node w3)) ->
  header_commitment rel (eth_chain_id (node w3)) h = Ok commitment ->
  exists name,
    network_name (eth_chain_id (node w3)) = Ok name /\
    fetch_header_bundle rel w3 id =
    ([AskBlock (endpoint w3) id; AskChainId (endpoint w3);
      AskChainId (endpoint w3)],
     Ok {| Bundle.chain_id := eth_chain_id (node w3);
           Bundle.network := name;
           Bundle.number := Header.number h;
           Bundle.timestamp := Header.timestamp h;
           Bundle.hash := HexBytes_hex rel (Header.hash h);
           Bundle.parentHash := HexBytes_hex rel (Header.parentHash h);
           Bundle.stateRoot := HexBytes_hex rel (Header.stateRoot h);
           Bundle.receiptsRoot := HexBytes_hex rel (Header.receiptsRoot h);
           Bundle.transactionsRoot :=
             HexBytes_hex rel (Header.transactionsRoot h);
           Bundle.commitment := commitment |}).
Proof.
  intros Hb Hc Hcommit.
  destruct (network_name_Ok _ (fits8_printable _ Hc)) as [name Hname].
  exists name. split; [exact Hname|].
  unfold fetch_header_bundle, emit, lift.
  rewrite Hb. cbn [mbind prog_bind]. rewrite Hname. cbn [mbind prog_bind].
  rewrite Hcommit. reflexivity.
Qed.

(** C9.  The commitment is a function of the chain ID and the header fields
    alone: for fixed fields (integers within 8 unsigned bytes) there is one
    32-byte digest, [header_commitment] returns its hexadecimal text, and
    every fetch from any provider and under any block reference that is
    served these fields and this chain ID carries that same text.  Nothing
    else enters the computation: the model has no clock and no randomness. *)
Theorem commitment_deterministic
        (rel : hexbytes_release) (cid : Z) (h : Header.t) :
  fits8 cid -> fits8 (Header.number h) -> fits8 (Header.timestamp h) ->
  exists digest : list byte,
    length digest = 32%nat /\
    header_commitment rel cid h = Ok ("0x" +:+ HexBytes_hex rel digest)%string /\
    forall (w3 : Web3) (id : block_id),
      eth_get_block (node w3) id = Ok h ->
      eth_chain_id (node w3) = cid ->
      exists b,
        snd (fetch_header_bundle rel w3 id) = Ok b /\
        Bundle.commitment b = ("0x" +:+ HexBytes_hex rel digest)%string.
Proof.
  intros Hc Hn Ht.
  pose proof (fields_Ok rel cid h Hc Hn Ht) as Hf.
  pose proof (header_commitment_of_fields _ _ _ _ Hf) as Hcommit.
  eexists. split; [apply keccak256_length|]. split; [exact Hcommit|].
  intros w3 id Hb <-.
  destruct (fetch_header_bundle_Ok rel w3 id h _ Hb Hc Hcommit)
    as (name & _ & Hfetch).
  rewrite Hfetch. cbn [snd]. eexists. split; reflexivity.
Qed.

Lemma sample_fits :
  fits8 1 /\ fits8 (Header.number sample_header) /\
  fits8 (Header.timestamp sample_header).
Proof. unfold fits8. cbn. lia. Qed.

Lemma commitment_deterministic_witness :
  (fits8 1 /\ fits8 (Header.number sample_header) /\
   fits8 (Header.timestamp sample_header)) /\
  exists digest : list byte,
    length digest = 32%nat /\
    header_commitment Hexbytes1 1 sample_header =
    Ok ("0x" +:+ HexBytes_hex Hexbytes1 digest)%string /\
    forall (w3 : Web3) (id : block_id),
      eth_get_block (node w3) id = Ok sample_header ->
      eth_chain_id (node w3) = 1 ->
      exists b,
        snd (fetch_header_bundle Hexbytes1 w3 id) = Ok b /\
        Bundle.commitment b = ("0x" +:+ HexBytes_hex Hexbytes1 digest)%string.
Proof.
  split; [exact sample_fits|].
  exact (commitment_deterministic Hexbytes1 1 sample_header
           (proj1 sample_fits) (proj1 (proj2 sample_fits))
           (proj2 (proj2 sample_fits))).
Defined.

(** ** The run of [main] *)

Lemma block_requests_app (t t' : list event) :
  block_requests (t ++ t') = block_requests t ++ block_requests t'.
Proof.
  induction t as [|e t IH]; [reflexivity|].
  destruct e; cbn [app block_requests]; rewrite IH; reflexivity.
Qed.

Lemma requests_bind {A B : Type} (m : prog A) (k : A -> prog B) :
  requests (m ≫= k) =
  requests m ++ match snd m with
                | Ok a => requests (k a)
                | Raise _ => []
                end.
Proof.
  unfold requests. destruct m as [t [a|e]]; cbn [mbind prog_bind fst snd].
  - destruct (k a) as [t' r]. cbn [fst]. apply block_requests_app.
  - now rewrite app_nil_r.
Qed.

Lemma snd_bind {A B : Type} (m : prog A) (k : A -> prog B) :
  snd (m ≫= k) = match snd m with
                 | Ok a => snd (k a)
                 | Raise e => Raise e
                 end.
Proof.
  destruct m as [t [a|e]]; cbn [mbind prog_bind fst snd]; [|reflexivity].
  now destruct (k a).
Qed.

Section Runs.

Variable rel : hexbytes_release.
Variable HTTPProvider : string -> Node.
Variable strftime_gmtime : Z -> result string.

Lemma requests_w3_connect (url : string) :
  requests (w3_connect HTTPProvider url) = [].
Proof.
  unfold w3_connect, requests, emit, print, sys_exit. cbn [node].
  destruct (is_connected (HTTPProvider url)); reflexivity.
Qed.

Lemma snd_w3_connect (url : string) :
  is_connected (HTTPProvider url) = true ->
  snd (w3_connect HTTPProvider url) =
  Ok {| endpoint := url; node := HTTPProvider url |}.
Proof. intros H. unfold w3_connect, emit. cbn [node]. now rewrite H. Qed.

Lemma requests_fetch_header_bundle (w3 : Web3) (id : block_id) :
  requests (fetch_header_bundle rel w3 id) = [(endpoint w3, id)].
Proof.
  unfold fetch_header_bundle, requests, emit, lift.
  destruct (eth_get_block (node w3) id) as [h|e]; [|reflexivity].
  cbn [mbind prog_bind].
  destruct (network_name (eth_chain_id (node w3))) as [name|e]; [|reflexivity].
  cbn [mbind prog_bind].
  destruct (header_commitment rel (eth_chain_id (node w3)) h); reflexivity.
Qed.

Lemma fetch_header_bundle_number (w3 : Web3) (id : block_id) (b : Bundle.t) :
  snd (fetch_header_bundle rel w3 id) = Ok b ->
  exists h, eth_get_block (node w3) id = Ok h /\
            Bundle.number b = Header.number h.
Proof.
  unfold fetch_header_bundle, emit, lift.
  destruct (eth_get_block (node w3) id) as [h|e]; [|discriminate].
  cbn [mbind prog_bind].
  destruct (network_name (eth_chain_id (node w3))) as [name|e]; [|discriminate].
  cbn [mbind prog_bind].
  destruct (header_commitment rel (eth_chain_id (node w3)) h); [|discriminate].
  cbn. intros H. injection H as <-. eauto.
Qed.

Lemma requests_print_bundle (label : string) (b : Bundle.t) :
  requests (print_bundle strftime_gmtime label b) = [].
Proof.
  unfold print_bundle, requests, print, emit, lift.
  destruct (strftime_gmtime (Bundle.timestamp b)); reflexivity.
Qed.

Lemma snd_print_bundle (label : string) (b : Bundle.t) (utc : string) :
  strftime_gmtime (Bundle.timestamp b) = Ok utc ->
  snd (print_bundle strftime_gmtime label b) = Ok tt.
Proof. intros H. unfold print_bundle, print, emit, lift. now rewrite H. Qed.

Lemma requests_compare (a b : Bundle.t) : requests (compare a b) = [].
Proof.
  unfold compare, requests, print, emit.
  destruct (sound (comparison a b)); reflexivity.
Qed.

(** The requests of a run that gets as far as the secondary provider. *)
Lemma requests_main (args : Args) (url2 : string) (id : block_id)
      (primary : Bundle.t) (utc : string) :
  truthy (Some (rpc1 args)) = true ->
  rpc2 args = Some url2 -> truthy (Some url2) = true ->
  parse_block_arg (block args) = Ok id ->
  is_connected (HTTPProvider (rpc1 args)) = true ->
  is_connected (HTTPProvider url2) = true ->
  snd (fetch_header_bundle rel
         {| endpoint := rpc1 args; node := HTTPProvider (rpc1 args) |} id)
  = Ok primary ->
  strftime_gmtime (Bundle.timestamp primary) = Ok utc ->
  requests (main rel HTTPProvider strftime_gmtime args) =
  [(rpc1 args, id); (url2, secondary_block_id primary id)].
Proof.
  intros H1 H2 H2' Hparse Hca Hcb Hfetch Hutc.
  unfold main. rewrite H1, Hparse, H2, H2'. cbn [negb].
  change (default EmptyString (Some url2)) with url2.
  rewrite requests_bind. change (requests (mret id)) with (@nil (string * block_id)).
  cbn [snd mret prog_ret app].
  rewrite requests_bind, requests_w3_connect, (snd_w3_connect _ Hca).
  cbn [app].
  rewrite requests_bind, requests_fetch_header_bundle, Hfetch. cbn [endpoint].
  rewrite requests_bind, requests_print_bundle, (snd_print_bundle _ _ _ Hutc).
  cbn [app]. rewrite requests_bind.
  rewrite requests_bind, requests_w3_connect, (snd_w3_connect _ Hcb).
  cbn [app].
  rewrite requests_bind, requests_fetch_header_bundle. cbn [endpoint app].
  f_equal. f_equal.
  rewrite snd_bind, (snd_w3_connect _ Hcb), snd_bind.
  destruct (snd (fetch_header_bundle rel
                  {| endpoint := url2; node := HTTPProvider url2 |}
                  (secondary_block_id primary id))) as [secondary|e];
    [|reflexivity].
  rewrite requests_bind, requests_print_bundle, snd_bind.
  destruct (snd (print_bundle strftime_gmtime "SECONDARY" secondary));
    [|reflexivity].
  rewrite requests_compare. cbn [app]. now destruct (snd (compare _ _)).
Qed.

End Runs.

(** C1, the input that the claim as stated gets wrong: with the reference
    "latest" the primary resolves block 100, and the secondary provider is
    asked for "latest" again, not for height 100; it answers with its own
    head, block 101. *)
Lemma secondary_asked_for_tag_again :
  resolved_height
    (fetch_header_bundle Hexbytes0
       {| endpoint := "https://a.example"; node := node_a |} (Tag "latest"))
  = Ok 100 /\
  requests (main Hexbytes0 two_providers utc_text latest_args) =
  [("https://a.example"%string, Tag "latest");
   ("https://b.example"%string, Tag "latest")] /\
  ~ In ("https://b.example"%string, Height 100)
       (requests (main Hexbytes0 two_providers utc_text latest_args)) /\
  In (Print (BlockLine 101 "2023-08-26 16:21:35"))
     (fst (main Hexbytes0 two_providers utc_text latest_args)).
Proof.
  vm_compute. split; [reflexivity|]. split; [reflexivity|]. split.
  - intros [H|[H|[]]]; discriminate H.
  - do 19 right. left. reflexivity.
Qed.

(** C1, amended.  When a secondary provider is configured and the run gets
    to it, the secondary bundle is fetched with the reference the code
    computes from the original one: a symbolic tag is passed on as it is, so
    the secondary provider resolves it on its own; for a literal height the
    secondary is asked for the number of the primary bundle, which is that
    same height whenever the primary provider answered with the block of the
    height it was asked for. *)
Theorem secondary_block_reference
        (rel : hexbytes_release) (HTTPProvider : string -> Node)
        (strftime_gmtime : Z -> result string) (args : Args) (url2 : string)
        (id : block_id) (primary : Bundle.t) (utc : string) :
  truthy (Some (rpc1 args)) = true ->
  rpc2 args = Some url2 -> truthy (Some url2) = true ->
  parse_block_arg (block args) = Ok id ->
  is_connected (HTTPProvider (rpc1 args)) = true ->
  is_connected (HTTPProvider url2) = true ->
  snd (fetch_header_bundle rel
         {| endpoint := rpc1 args; node := HTTPProvider (rpc1 args) |} id)
  = Ok primary ->
  strftime_gmtime (Bundle.timestamp primary) = Ok utc ->
  requests (main rel HTTPProvider strftime_gmtime args) =
  [(rpc1 args, id); (url2, secondary_block_id primary id)] /\
  (forall name, id = Tag name -> secondary_block_id primary id = Tag name) /\
  (forall n, id = Height n ->
     secondary_block_id primary id = Height (Bundle.number primary) /\
     forall h, eth_get_block (HTTPProvider (rpc1 args)) (Height n) = Ok h ->
               Header.number h = n ->
               secondary_block_id primary id = Height n).
Proof.
  intros H1 H2 H2' Hparse Hca Hcb Hfetch Hutc.
  split; [now apply (requests_main rel HTTPProvider strftime_gmtime args url2
                       id primary utc)|].
  split; [now intros name ->|].
  intros n ->. split; [reflexivity|].
  intros h Hh Hn. cbn [secondary_block_id].
  destruct (fetch_header_bundle_number rel _ _ _ Hfetch) as (h' & Hh' & ->).
  cbn [node] in Hh'. congruence.
Qed.

Lemma secondary_block_reference_witness :
  exists primary : Bundle.t,
    snd (fetch_header_bundle Hexbytes0
           {| endpoint := rpc1 height_args;
              node := two_providers (rpc1 height_args) |} (Height 100))
    = Ok primary /\
    requests (main Hexbytes0 two_providers utc_text height_args) =
    [(rpc1 height_args, Height 100);
     ("https://b.example"%string, secondary_block_id primary (Height 100))] /\
    (forall name, Height 100 = Tag name ->
                  secondary_block_id primary (Height 100) = Tag name) /\
    (forall n, Height 100 = Height n ->
       secondary_block_id primary (Height 100) = Height (Bundle.number primary) /\
       forall h, eth_get_block (two_providers (rpc1 height_args)) (Height n) = Ok h ->
                 Header.number h = n ->
                 secondary_block_id primary (Height 100) = Height n).
Proof.
  eexists. split; [vm_compute; reflexivity|].
  apply (secondary_block_reference Hexbytes0 two_providers utc_text height_args
           "https://b.example" (Height 100) _ "2023-08-26 16:21:35");
    vm_compute; reflexivity.
Defined.

(** ** Bundles that differ in the state root only *)

(** Whatever the two commitments are, a difference in the state root alone
    shows as [stateRoot] false, the six other header fields true, and an
    unsound verdict; the commitment line is false exactly when the two
    commitment texts differ. *)
Lemma comparison_state_root_only (a b : Bundle.t) :
  Bundle.chain_id a = Bundle.chain_id b ->
  Bundle.number a = Bundle.number b ->
  Bundle.hash a = Bundle.hash b ->
  Bundle.parentHash a = Bundle.parentHash b ->
  Bundle.receiptsRoot a = Bundle.receiptsRoot b ->
  Bundle.transactionsRoot a = Bundle.transactionsRoot b ->
  Bundle.stateRoot a <> Bundle.stateRoot b ->
  let r := comparison a b in
  same_state r = false /\ same_chain r = true /\ same_num r = true /\
  same_hash r = true /\ same_parent r = true /\ same_receipts r = true /\
  same_txroot r = true /\ sound r = false /\
  (same_commit r = false <-> Bundle.commitment a <> Bundle.commitment b).
Proof.
  intros Hc Hn Hh Hp Hr Ht Hs r. subst r.
  unfold sound, all.
  cbn [comparison same_chain same_num same_hash same_parent same_state
       same_receipts same_txroot same_commit forallb id].
  rewrite Hc, Hn, Hh, Hp, Hr, Ht, !Z.eqb_refl, !String.eqb_refl.
  apply String.eqb_neq in Hs. rewrite Hs. cbn [andb].
  repeat (split; [reflexivity|]). apply String.eqb_neq.
Qed.

(** With the 0x prefix in [hex()], two headers of the field domain that
    differ in the state root have different preimages, and their commitments
    are equal exactly when Keccak-256 maps the two preimages to one digest. *)
Lemma commitments_equal_iff_collision (cid : Z) (h h' : Header.t) :
  in_field_domain cid h -> in_field_domain cid h' ->
  Header.stateRoot h <> Header.stateRoot h' ->
  exists p p',
    fields Hexbytes0 cid h = Ok p /\ fields Hexbytes0 cid h' = Ok p' /\
    p <> p' /\
    (header_commitment Hexbytes0 cid h = header_commitment Hexbytes0 cid h'
     <-> Keccak.keccak256 p = Keccak.keccak256 p').
Proof.
  intros D D' Hs.
  destruct (fields_on_domain cid h D) as (Hlen & Hf).
  destruct (fields_on_domain cid h' D') as (Hlen' & Hf').
  do 2 eexists. split; [exact Hf|]. split; [exact Hf'|]. split.
  - intros E.
    destruct D as (_ & _ & _ & H1 & H2 & H3 & _).
    destruct D' as (_ & _ & _ & H1' & H2' & H3' & _).
    apply app_inj_1 in E as [_ E]; [|reflexivity].
    apply app_inj_1 in E as [_ E]; [|reflexivity].
    apply app_inj_1 in E as [_ E]; [|congruence].
    apply app_inj_1 in E as [_ E]; [|congruence].
    apply app_inj_1 in E as [E _]; [|congruence].
    contradiction.
  - rewrite (header_commitment_of_fields _ _ _ _ Hf).
    rewrite (header_commitment_of_fields _ _ _ _ Hf').
    split.
    + intros E. injection E as E. apply hexlify_inj. exact E.
    + intros E. now rewrite E.
Qed.

(** Without the 0x prefix in [hex()], the slices take the first byte off each
    hash-like field: on the field domain the preimage has 179 bytes. *)
Lemma fields_without_prefix (cid : Z) (h : Header.t) :
  in_field_domain cid h ->
  exists p,
    fields Hexbytes1 cid h = Ok p /\ length p = 179%nat /\
    p = big_endian8 cid ++ big_endian8 (Header.number h) ++ tl (Header.hash h)
        ++ tl (Header.parentHash h) ++ tl (Header.stateRoot h)
        ++ tl (Header.receiptsRoot h) ++ tl (Header.transactionsRoot h)
        ++ big_endian8 (Header.timestamp h).
Proof.
  intros (Hc & Hn & Ht & H1 & H2 & H3 & H4 & H5).
  eexists. split; [now apply fields_Ok|]. split; [|reflexivity].
  cbn [sliced]. rewrite !length_app, !big_endian8_length.
  destruct (Header.hash h), (Header.parentHash h), (Header.stateRoot h),
    (Header.receiptsRoot h), (Header.transactionsRoot h); try discriminate.
  cbn [tl length] in *. lia.
Qed.

(** So without the prefix a change in the first byte of a field does not
    reach the commitment. *)
Example first_byte_outside_commitment :
  Header.stateRoot sample_header <> Header.stateRoot first_byte_header /\
  header_commitment Hexbytes1 1 sample_header =
  header_commitment Hexbytes1 1 first_byte_header.
Proof.
  split; [vm_compute; discriminate|vm_compute; reflexivity].
Qed.

(** * Further properties of the program *)

(** ** Runs as traces *)

Lemma bind_mret_l {A B : Type} (a : A) (k : A -> prog B) : mret a ≫= k = k a.
Proof. cbn. now destruct (k a). Qed.

Lemma bind_run_Ok {A B : Type} (m : prog A) (k : A -> prog B) (a : A) :
  snd m = Ok a -> m ≫= k = (fst m ++ fst (k a), snd (k a)).
Proof.
  destruct m as [t r]. cbn [snd fst]. intros ->. cbn. now destruct (k a).
Qed.

Lemma bind_pair_Ok {A B : Type} (t : list event) (a : A) (k : A -> prog B) :
  (t, Ok a) ≫= k = (t ++ fst (k a), snd (k a)).
Proof. now apply bind_run_Ok. Qed.

Lemma bind_run_Raise {A B : Type} (m : prog A) (k : A -> prog B) (e : exn) :
  snd m = Raise e -> m ≫= k = (fst m, Raise e).
Proof. destruct m as [t r]. cbn [snd fst]. now intros ->. Qed.

Section MoreRuns.

Variable rel : hexbytes_release.
Variable HTTPProvider : string -> Node.
Variable strftime_gmtime : Z -> result string.

Lemma w3_connect_connected (url : string) :
  is_connected (HTTPProvider url) = true ->
  w3_connect HTTPProvider url =
  ([AskConnected url], Ok {| endpoint := url; node := HTTPProvider url |}).
Proof. intros H. unfold w3_connect, emit. cbn [node]. now rewrite H. Qed.

Lemma w3_connect_refused (url : string) :
  is_connected (HTTPProvider url) = false ->
  w3_connect HTTPProvider url =
  ([AskConnected url; Print (ConnectionFailed url)], Raise (SystemExit 1)).
Proof. intros H. unfold w3_connect, emit. cbn [node]. now rewrite H. Qed.

Lemma print_bundle_Ok (label : string) (b : Bundle.t) (utc : string) :
  strftime_gmtime (Bundle.timestamp b) = Ok utc ->
  print_bundle strftime_gmtime label b =
  ([Print (BundleTitle label);
    Print (NetworkLine (Bundle.network b) (Bundle.chain_id b));
    Print (BlockLine (Bundle.number b) utc);
    Print (FieldLine "Hash" (Bundle.hash b));
    Print (FieldLine "Parent" (Bundle.parentHash b));
    Print (FieldLine "stateRoot" (Bundle.stateRoot b));
    Print (FieldLine "receiptsRoot" (Bundle.receiptsRoot b));
    Print (FieldLine "txRoot" (Bundle.transactionsRoot b));
    Print (FieldLine "Header Commitment" (Bundle.commitment b))], Ok tt).
Proof. intros H. unfold print_bundle, print, emit, lift. now rewrite H. Qed.

Lemma print_bundle_Raise (label : string) (b : Bundle.t) (e : exn) :
  strftime_gmtime (Bundle.timestamp b) = Raise e ->
  print_bundle strftime_gmtime label b =
  ([Print (BundleTitle label);
    Print (NetworkLine (Bundle.network b) (Bundle.chain_id b))], Raise e).
Proof. intros H. unfold print_bundle, print, emit, lift. now rewrite H. Qed.

(** The run once the command line is accepted. *)
Lemma main_after_checks (args : Args) (id : block_id) :
  truthy (Some (rpc1 args)) = true ->
  parse_block_arg (block args) = Ok id ->
  main rel HTTPProvider strftime_gmtime args =
  (w3a ← w3_connect HTTPProvider (rpc1 args);
   primary ← fetch_header_bundle rel w3a id;
   print_bundle strftime_gmtime "PRIMARY" primary;;
   (if truthy (rpc2 args) then
      w3b ← w3_connect HTTPProvider (default EmptyString (rpc2 args));
      secondary ← fetch_header_bundle rel w3b (secondary_block_id primary id);
      print_bundle strftime_gmtime "SECONDARY" secondary;;
      compare primary secondary
    else mret tt);;
   print Elapsed).
Proof.
  intros H1 Hparse. unfold main. rewrite H1, Hparse. cbn [negb].
  now rewrite bind_mret_l.
Qed.

(** X1.  [main] contacts a provider only after the command line is accepted:
    an empty --rpc1 or a --block that does not parse ends the run with one
    diagnostic line and exit status 1, and otherwise the first thing the run
    does is to ask the primary endpoint whether it is connected. *)
Theorem main_validates_before_contact (args : Args) :
  (truthy (Some (rpc1 args)) = false ->
   main rel HTTPProvider strftime_gmtime args =
   ([Print MissingRpc], Raise (SystemExit 1))) /\
  (truthy (Some (rpc1 args)) = true ->
   forall e, parse_block_arg (block args) = Raise e ->
   main rel HTTPProvider strftime_gmtime args =
   ([Print InvalidBlock], Raise (SystemExit 1))) /\
  (truthy (Some (rpc1 args)) = true ->
   forall id, parse_block_arg (block args) = Ok id ->
   exists t, fst (main rel HTTPProvider strftime_gmtime args) =
             AskConnected (rpc1 args) :: t).
Proof.
  split; [|split].
  - intros H. unfold main. now rewrite H.
  - intros H e Hparse. unfold main. rewrite H, Hparse. cbn [negb].
    rewrite (parse_block_arg_raises_ValueError _ _ Hparse). reflexivity.
  - intros H id Hparse. rewrite (main_after_checks _ _ H Hparse).
    destruct (is_connected (HTTPProvider (rpc1 args))) eqn:Hc.
    + rewrite (w3_connect_connected _ Hc).
      rewrite bind_pair_Ok. cbn [fst app]. eauto.
    + rewrite (w3_connect_refused _ Hc). cbn. eauto.
Qed.

(** X2.  A provider that does not answer ends the run with exit status 1: a
    refused primary before any block is asked for, a refused secondary after
    the primary bundle was fetched and printed, with no secondary bundle and
    no comparison. *)
Theorem main_connection_refused (args : Args) (id : block_id) :
  truthy (Some (rpc1 args)) = true ->
  parse_block_arg (block args) = Ok id ->
  (is_connected (HTTPProvider (rpc1 args)) = false ->
   main rel HTTPProvider strftime_gmtime args =
   ([AskConnected (rpc1 args); Print (ConnectionFailed (rpc1 args))],
    Raise (SystemExit 1))) /\
  (forall (primary : Bundle.t) (utc url2 : string),
     is_connected (HTTPProvider (rpc1 args)) = true ->
     snd (fetch_header_bundle rel
            {| endpoint := rpc1 args; node := HTTPProvider (rpc1 args) |} id)
     = Ok primary ->
     strftime_gmtime (Bundle.timestamp primary) = Ok utc ->
     rpc2 args = Some url2 -> truthy (Some url2) = true ->
     is_connected (HTTPProvider url2) = false ->
     main rel HTTPProvider strftime_gmtime args =
     (AskConnected (rpc1 args)
        :: fst (fetch_header_bundle rel
                  {| endpoint := rpc1 args; node := HTTPProvider (rpc1 args) |}
                  id)
        ++ fst (print_bundle strftime_gmtime "PRIMARY" primary)
        ++ [AskConnected url2; Print (ConnectionFailed url2)],
      Raise (SystemExit 1))).
Proof.
  intros H1 Hparse. rewrite (main_after_checks _ _ H1 Hparse). split.
  - intros Hc. now rewrite (w3_connect_refused _ Hc).
  - intros primary utc url2 Hca Hfetch Hutc H2 H2' Hcb.
    rewrite (w3_connect_connected _ Hca), bind_pair_Ok.
    rewrite (bind_run_Ok _ _ _ Hfetch).
    rewrite (print_bundle_Ok "PRIMARY" _ _ Hutc), bind_pair_Ok.
    rewrite H2, H2'. change (default EmptyString (Some url2)) with url2.
    rewrite (w3_connect_refused _ Hcb). cbn [mbind prog_bind fst snd app].
    reflexivity.
Qed.

(** X3.  Without a secondary endpoint ([--rpc2] absent or empty) a run whose
    fetch and print succeed asks the primary only, prints its bundle and the
    elapsed time, compares nothing, and ends normally. *)
Theorem main_primary_only (args : Args) (id : block_id) (primary : Bundle.t)
        (utc : string) :
  truthy (Some (rpc1 args)) = true ->
  parse_block_arg (block args) = Ok id ->
  is_connected (HTTPProvider (rpc1 args)) = true ->
  snd (fetch_header_bundle rel
         {| endpoint := rpc1 args; node := HTTPProvider (rpc1 args) |} id)
  = Ok primary ->
  strftime_gmtime (Bundle.timestamp primary) = Ok utc ->
  truthy (rpc2 args) = false ->
  main rel HTTPProvider strftime_gmtime args =
  (AskConnected (rpc1 args)
     :: fst (fetch_header_bundle rel
               {| endpoint := rpc1 args; node := HTTPProvider (rpc1 args) |} id)
     ++ fst (print_bundle strftime_gmtime "PRIMARY" primary)
     ++ [Print Elapsed],
   Ok tt).
Proof.
  intros H1 Hparse Hca Hfetch Hutc H2.
  rewrite (main_after_checks _ _ H1 Hparse).
  rewrite (w3_connect_connected _ Hca), bind_pair_Ok.
  rewrite (bind_run_Ok _ _ _ Hfetch).
  rewrite (print_bundle_Ok "PRIMARY" _ _ Hutc), bind_pair_Ok.
  rewrite H2. rewrite bind_mret_l. cbn [fst snd app print emit]. reflexivity.
Qed.

(** X4.  A run that fetches and prints both bundles always ends normally,
    whatever the comparison says: after the secondary bundle come the lines
    of [compare] and the elapsed time, and the result is not an error even
    when the bundles disagree. *)
Theorem main_completes_whatever_the_verdict
        (args : Args) (id : block_id) (primary secondary : Bundle.t)
        (utc utc2 url2 : string) :
  truthy (Some (rpc1 args)) = true ->
  parse_block_arg (block args) = Ok id ->
  is_connected (HTTPProvider (rpc1 args)) = true ->
  snd (fetch_header_bundle rel
         {| endpoint := rpc1 args; node := HTTPProvider (rpc1 args) |} id)
  = Ok primary ->
  strftime_gmtime (Bundle.timestamp primary) = Ok utc ->
  rpc2 args = Some url2 -> truthy (Some url2) = true ->
  is_connected (HTTPProvider url2) = true ->
  snd (fetch_header_bundle rel
         {| endpoint := url2; node := HTTPProvider url2 |}
         (secondary_block_id primary id))
  = Ok secondary ->
  strftime_gmtime (Bundle.timestamp secondary) = Ok utc2 ->
  main rel HTTPProvider strftime_gmtime args =
  (AskConnected (rpc1 args)
     :: fst (fetch_header_bundle rel
               {| endpoint := rpc1 args; node := HTTPProvider (rpc1 args) |} id)
     ++ fst (print_bundle strftime_gmtime "PRIMARY" primary)
     ++ AskConnected url2
     :: fst (fetch_header_bundle rel
               {| endpoint := url2; node := HTTPProvider url2 |}
               (secondary_block_id primary id))
     ++ fst (print_bundle strftime_gmtime "SECONDARY" secondary)
     ++ fst (compare primary secondary)
     ++ [Print Elapsed],
   Ok tt).
Proof.
  intros H1 Hparse Hca Hfetch Hutc H2 H2' Hcb Hfetch2 Hutc2.
  assert (Hcmp : snd (compare primary secondary) = Ok tt).
  { unfold compare, print, emit.
    destruct (sound (comparison primary secondary)); reflexivity. }
  pose proof (snd_print_bundle strftime_gmtime "PRIMARY" _ _ Hutc) as Hp1.
  pose proof (snd_print_bundle strftime_gmtime "SECONDARY" _ _ Hutc2) as Hp2.
  rewrite (main_after_checks _ _ H1 Hparse).
  rewrite (w3_connect_connected _ Hca), bind_pair_Ok.
  rewrite (bind_run_Ok _ _ _ Hfetch). cbn [fst snd].
  rewrite (bind_run_Ok _ _ _ Hp1). cbn [fst snd].
  rewrite H2, H2'. change (default EmptyString (Some url2)) with url2.
  rewrite (w3_connect_connected _ Hcb), bind_pair_Ok.
  rewrite (bind_run_Ok _ _ _ Hfetch2). cbn [fst snd].
  rewrite (bind_run_Ok _ _ _ Hp2). cbn [fst snd]. rewrite Hcmp.
  rewrite bind_pair_Ok. cbn [fst snd app print emit].
  rewrite <- !app_assoc. reflexivity.
Qed.

(** X5.  The first failure ends the run with that exception and nothing
    further is done: a failed primary fetch right after its request, a
    timestamp the platform cannot format after the first two lines of the
    primary bundle; in both cases the secondary endpoint is never
    contacted. *)
Theorem main_stops_at_first_failure (args : Args) (id : block_id) :
  truthy (Some (rpc1 args)) = true ->
  parse_block_arg (block args) = Ok id ->
  is_connected (HTTPProvider (rpc1 args)) = true ->
  (forall e,
     snd (fetch_header_bundle rel
            {| endpoint := rpc1 args; node := HTTPProvider (rpc1 args) |} id)
     = Raise e ->
     main rel HTTPProvider strftime_gmtime args =
     (AskConnected (rpc1 args)
        :: fst (fetch_header_bundle rel
                  {| endpoint := rpc1 args; node := HTTPProvider (rpc1 args) |}
                  id),
      Raise e)) /\
  (forall primary e,
     snd (fetch_header_bundle rel
            {| endpoint := rpc1 args; node := HTTPProvider (rpc1 args) |} id)
     = Ok primary ->
     strftime_gmtime (Bundle.timestamp primary) = Raise e ->
     main rel HTTPProvider strftime_gmtime args =
     (AskConnected (rpc1 args)
        :: fst (fetch_header_bundle rel
                  {| endpoint := rpc1 args; node := HTTPProvider (rpc1 args) |}
                  id)
        ++ [Print (BundleTitle "PRIMARY");
            Print (NetworkLine (Bundle.network primary)
                               (Bundle.chain_id primary))],
      Raise e)).
Proof.
  intros H1 Hparse Hca. rewrite (main_after_checks _ _ H1 Hparse).
  rewrite (w3_connect_connected _ Hca), bind_pair_Ok. split.
  - intros e Hfetch. now rewrite (bind_run_Raise _ _ _ Hfetch).
  - intros primary e Hfetch Hutc.
    rewrite (bind_run_Ok _ _ _ Hfetch).
    rewrite (print_bundle_Raise "PRIMARY" _ _ Hutc). reflexivity.
Qed.

(** X6.  Whatever the command line and the providers, a run asks for at most
    two blocks: none, or the parsed reference on the primary endpoint, or
    that and then, only once the primary bundle is there, the reference
    computed from it on the secondary endpoint. *)
Theorem main_asks_at_most_two_blocks (args : Args) :
  requests (main rel HTTPProvider strftime_gmtime args) = [] \/
  exists id,
    parse_block_arg (block args) = Ok id /\
    (requests (main rel HTTPProvider strftime_gmtime args) = [(rpc1 args, id)]
     \/
     exists url2 primary,
       rpc2 args = Some url2 /\
       snd (fetch_header_bundle rel
              {| endpoint := rpc1 args; node := HTTPProvider (rpc1 args) |} id)
       = Ok primary /\
       requests (main rel HTTPProvider strftime_gmtime args) =
       [(rpc1 args, id); (url2, secondary_block_id primary id)]).
Proof.
  destruct (truthy (Some (rpc1 args))) eqn:H1;
    [|left; unfold main; now rewrite H1].
  destruct (parse_block_arg (block args)) as [id|e] eqn:Hparse.
  2:{ left. unfold main. rewrite H1, Hparse. cbn [negb].
      now rewrite (parse_block_arg_raises_ValueError _ _ Hparse). }
  rewrite (main_after_checks _ _ H1 Hparse).
  destruct (is_connected (HTTPProvider (rpc1 args))) eqn:Hca;
    [|left; now rewrite (w3_connect_refused _ Hca)].
  rewrite requests_bind, requests_w3_connect, (snd_w3_connect _ _ Hca).
  rewrite requests_bind, requests_fetch_header_bundle. cbn [endpoint app].
  right. exists id. split; [reflexivity|].
  destruct (snd (fetch_header_bundle rel
                   {| endpoint := rpc1 args; node := HTTPProvider (rpc1 args) |}
                   id)) as [primary|e] eqn:Hfetch; [|now left].
  rewrite requests_bind, requests_print_bundle. cbn [app].
  destruct (snd (print_bundle strftime_gmtime "PRIMARY" primary));
    [|now left].
  rewrite requests_bind.
  assert (Hend : forall r : result unit,
             match r with
             | Ok _ => requests (print Elapsed)
             | Raise _ => []
             end = []) by (now intros [|]).
  rewrite Hend, app_nil_r.
  destruct (rpc2 args) as [[|c url2]|] eqn:H2; cbn [truthy]; try now left.
  change (default EmptyString (Some (String c url2))) with (String c url2).
  rewrite requests_bind, requests_w3_connect. cbn [app].
  destruct (is_connected (HTTPProvider (String c url2))) eqn:Hcb.
  - rewrite (snd_w3_connect _ _ Hcb).
    rewrite requests_bind, requests_fetch_header_bundle. cbn [endpoint].
    right. exists (String c url2), primary.
    split; [reflexivity|]. split; [reflexivity|].
    destruct (snd (fetch_header_bundle rel
                     {| endpoint := String c url2;
                        node := HTTPProvider (String c url2) |}
                     (secondary_block_id primary id))) as [secondary|e];
      [|reflexivity].
    rewrite requests_bind, requests_print_bundle, requests_compare.
    now destruct (snd (print_bundle strftime_gmtime "SECONDARY" secondary)).
  - rewrite (w3_connect_refused _ Hcb). now left.
Qed.

End MoreRuns.

Lemma main_connection_refused_witness :
  truthy (Some (rpc1 height_args)) = true /\
  parse_block_arg (block height_args) = Ok (Height 100) /\
  main Hexbytes0 no_provider utc_text height_args =
  ([AskConnected (rpc1 height_args);
    Print (ConnectionFailed (rpc1 height_args))], Raise (SystemExit 1)) /\
  exists primary : Bundle.t,
    snd (fetch_header_bundle Hexbytes0
           {| endpoint := rpc1 height_args;
              node := first_provider_only (rpc1 height_args) |} (Height 100))
    = Ok primary /\
    main Hexbytes0 first_provider_only utc_text height_args =
    (AskConnected (rpc1 height_args)
       :: fst (fetch_header_bundle Hexbytes0
                 {| endpoint := rpc1 height_args;
                    node := first_provider_only (rpc1 height_args) |}
                 (Height 100))
       ++ fst (print_bundle utc_text "PRIMARY" primary)
       ++ [AskConnected "https://b.example";
           Print (ConnectionFailed "https://b.example")],
     Raise (SystemExit 1)).
Proof.
  split; [reflexivity|]. split; [reflexivity|]. split.
  - exact (proj1 (main_connection_refused Hexbytes0 no_provider utc_text
                    height_args (Height 100) eq_refl eq_refl) eq_refl).
  - eexists. split; [vm_compute; reflexivity|].
    apply (proj2 (main_connection_refused Hexbytes0 first_provider_only
                    utc_text height_args (Height 100) eq_refl eq_refl)
             _ "2023-08-26 16:21:35" "https://b.example");
      vm_compute; reflexivity.
Defined.

Lemma main_primary_only_witness :
  exists primary : Bundle.t,
    snd (fetch_header_bundle Hexbytes0
           {| endpoint := rpc1 primary_only_args;
              node := two_providers (rpc1 primary_only_args) |} (Height 100))
    = Ok primary /\
    main Hexbytes0 two_providers utc_text primary_only_args =
    (AskConnected (rpc1 primary_only_args)
       :: fst (fetch_header_bundle Hexbytes0
                 {| endpoint := rpc1 primary_only_args;
                    node := two_providers (rpc1 primary_only_args) |}
                 (Height 100))
       ++ fst (print_bundle utc_text "PRIMARY" primary)
       ++ [Print Elapsed],
     Ok tt).
Proof.
  eexists. split; [vm_compute; reflexivity|].
  apply (main_primary_only Hexbytes0 two_providers utc_text primary_only_args
           (Height 100) _ "2023-08-26 16:21:35");
    vm_compute; reflexivity.
Defined.

(** The run with reference "latest" on the two providers whose heads differ:
    the bundles disagree and the run still ends normally. *)
Lemma main_completes_whatever_the_verdict_witness :
  exists primary secondary : Bundle.t,
    snd (fetch_header_bundle Hexbytes0
           {| endpoint := rpc1 latest_args;
              node := two_providers (rpc1 latest_args) |} (Tag "latest"))
    = Ok primary /\
    snd (fetch_header_bundle Hexbytes0
           {| endpoint := "https://b.example";
              node := two_providers "https://b.example" |}
           (secondary_block_id primary (Tag "latest")))
    = Ok secondary /\
    sound (comparison primary secondary) = false /\
    main Hexbytes0 two_providers utc_text latest_args =
    (AskConnected (rpc1 latest_args)
       :: fst (fetch_header_bundle Hexbytes0
                 {| endpoint := rpc1 latest_args;
                    node := two_providers (rpc1 latest_args) |}
                 (Tag "latest"))
       ++ fst (print_bundle utc_text "PRIMARY" primary)
       ++ AskConnected "https://b.example"
       :: fst (fetch_header_bundle Hexbytes0
                 {| endpoint := "https://b.example";
                    node := two_providers "https://b.example" |}
                 (secondary_block_id primary (Tag "latest")))
       ++ fst (print_bundle utc_text "SECONDARY" secondary)
       ++ fst (compare primary secondary)
       ++ [Print Elapsed],
     Ok tt).
Proof.
  eexists. eexists. split; [vm_compute; reflexivity|].
  split; [vm_compute; reflexivity|]. split; [vm_compute; reflexivity|].
  apply (main_completes_whatever_the_verdict Hexbytes0 two_providers utc_text
           latest_args (Tag "latest") _ _ "2023-08-26 16:21:35"
           "2023-08-26 16:21:35" "https://b.example");
    vm_compute; reflexivity.
Defined.

Lemma main_stops_at_first_failure_witness :
  main Hexbytes0 empty_provider utc_text height_args =
  (AskConnected (rpc1 height_args)
     :: fst (fetch_header_bundle Hexbytes0
               {| endpoint := rpc1 height_args;
                  node := empty_provider (rpc1 height_args) |} (Height 100)),
   Raise ProviderError) /\
  exists primary : Bundle.t,
    snd (fetch_header_bundle Hexbytes0
           {| endpoint := rpc1 height_args;
              node := two_providers (rpc1 height_args) |} (Height 100))
    = Ok primary /\
    main Hexbytes0 two_providers broken_clock height_args =
    (AskConnected (rpc1 height_args)
       :: fst (fetch_header_bundle Hexbytes0
                 {| endpoint := rpc1 height_args;
                    node := two_providers (rpc1 height_args) |} (Height 100))
       ++ [Print (BundleTitle "PRIMARY");
           Print (NetworkLine (Bundle.network primary)
                              (Bundle.chain_id primary))],
     Raise OverflowError).
Proof.
  split.
  - exact (proj1 (main_stops_at_first_failure Hexbytes0 empty_provider utc_text
                    height_args (Height 100) eq_refl eq_refl eq_refl)
             ProviderError eq_refl).
  - eexists. split; [vm_compute; reflexivity|].
    apply (proj2 (main_stops_at_first_failure Hexbytes0 two_providers
                    broken_clock height_args (Height 100)
                    eq_refl eq_refl eq_refl));
      vm_compute; reflexivity.
Defined.

(** ** What a fetch returns *)

Lemma fetch_header_bundle_inv (rel : hexbytes_release) (w3 : Web3)
      (id : block_id) (b : Bundle.t) :
  snd (fetch_header_bundle rel w3 id) = Ok b ->
  exists h name c,
    eth_get_block (node w3) id = Ok h /\
    network_name (eth_chain_id (node w3)) = Ok name /\
    header_commitment rel (eth_chain_id (node w3)) h = Ok c /\
    b = {| Bundle.chain_id := eth_chain_id (node w3);
           Bundle.network := name;
           Bundle.number := Header.number h;
           Bundle.timestamp := Header.timestamp h;
           Bundle.hash := HexBytes_hex rel (Header.hash h);
           Bundle.parentHash := HexBytes_hex rel (Header.parentHash h);
           Bundle.stateRoot := HexBytes_hex rel (Header.stateRoot h);
           Bundle.receiptsRoot := HexBytes_hex rel (Header.receiptsRoot h);
           Bundle.transactionsRoot :=
             HexBytes_hex rel (Header.transactionsRoot h);
           Bundle.commitment := c |}.
Proof.
  unfold fetch_header_bundle, emit, lift.
  destruct (eth_get_block (node w3) id) as [h|e] eqn:Hh; [|discriminate].
  cbn [mbind prog_bind].
  destruct (network_name (eth_chain_id (node w3))) as [name|e] eqn:Hn;
    [|discriminate].
  cbn [mbind prog_bind].
  destruct (header_commitment rel (eth_chain_id (node w3)) h) as [c|e] eqn:Hc;
    [|discriminate].
  cbn [mbind prog_bind mret prog_ret app snd]. intros H. injection H as <-.
  exists h, name, c. auto.
Qed.

Lemma header_commitment_Ok_fits (rel : hexbytes_release) (cid : Z)
      (h : Header.t) (c : string) :
  header_commitment rel cid h = Ok c ->
  fits8 cid /\ fits8 (Header.number h) /\ fits8 (Header.timestamp h).
Proof.
  intros H.
  destruct (fits8_dec cid) as [Hc|Hc];
    [destruct (fits8_dec (Header.number h)) as [Hn|Hn];
     [destruct (fits8_dec (Header.timestamp h)) as [Ht|Ht]; [auto|]|]|];
    unfold header_commitment in H; rewrite fields_Raise in H by tauto;
    discriminate H.
Qed.

(** X7.  A fetch returns a bundle exactly when the provider serves a header
    for the reference and the chain ID, the block number and the timestamp
    each fit 8 unsigned bytes.  A failed block request is passed on at once,
    before the chain ID is read; once a header is there the chain ID is read
    twice; and an integer out of range surfaces as [OverflowError]. *)
Theorem fetch_header_bundle_succeeds_iff
        (rel : hexbytes_release) (w3 : Web3) (id : block_id) :
  ((exists b, snd (fetch_header_bundle rel w3 id) = Ok b) <->
   exists h, eth_get_block (node w3) id = Ok h /\
             fits8 (eth_chain_id (node w3)) /\
             fits8 (Header.number h) /\ fits8 (Header.timestamp h)) /\
  (forall e, eth_get_block (node w3) id = Raise e ->
             fetch_header_bundle rel w3 id =
             ([AskBlock (endpoint w3) id], Raise e)) /\
  (forall h, eth_get_block (node w3) id = Ok h ->
             fst (fetch_header_bundle rel w3 id) =
             [AskBlock (endpoint w3) id; AskChainId (endpoint w3);
              AskChainId (endpoint w3)]) /\
  (forall h, eth_get_block (node w3) id = Ok h ->
             Z.abs (eth_chain_id (node w3)) < 10 ^ Z.of_nat max_str_digits ->
             ~ (fits8 (eth_chain_id (node w3)) /\ fits8 (Header.number h) /\
                fits8 (Header.timestamp h)) ->
             snd (fetch_header_bundle rel w3 id) = Raise OverflowError).
Proof.
  split; [|split; [|split]].
  - split.
    + intros [b Hb].
      destruct (fetch_header_bundle_inv _ _ _ _ Hb) as (h & name & c & Hh & _ & Hc & _).
      exists h. split; [exact Hh|]. exact (header_commitment_Ok_fits _ _ _ _ Hc).
    + intros (h & Hh & Hc & Hn & Ht).
      pose proof (header_commitment_of_fields _ _ _ _
                    (fields_Ok rel _ h Hc Hn Ht)) as Hcommit.
      destruct (fetch_header_bundle_Ok rel w3 id h _ Hh Hc Hcommit)
        as (name & _ & Hfetch).
      rewrite Hfetch. cbn [snd]. eauto.
  - intros e He. unfold fetch_header_bundle, emit, lift. now rewrite He.
  - intros h Hh. unfold fetch_header_bundle, emit, lift. rewrite Hh.
    cbn [mbind prog_bind].
    destruct (network_name (eth_chain_id (node w3))); [|reflexivity].
    cbn [mbind prog_bind].
    destruct (header_commitment rel (eth_chain_id (node w3)) h); reflexivity.
  - intros h Hh Hp Hfits. unfold fetch_header_bundle, emit, lift. rewrite Hh.
    cbn [mbind prog_bind].
    destruct (network_name_Ok _ Hp) as [name ->]. cbn [mbind prog_bind].
    unfold header_commitment. rewrite fields_Raise by exact Hfits. reflexivity.
Qed.

(** ** Comparing fetched bundles *)

(** X8.  On two fetched bundles the comparison of texts is the comparison of
    what the providers served: each of the seven field booleans is true
    exactly when the two chain IDs, block numbers or header byte strings are
    equal. *)
Theorem comparison_reflects_headers
        (rel : hexbytes_release) (w3 w3' : Web3) (id id' : block_id)
        (h h' : Header.t) (b b' : Bundle.t) :
  eth_get_block (node w3) id = Ok h ->
  eth_get_block (node w3') id' = Ok h' ->
  snd (fetch_header_bundle rel w3 id) = Ok b ->
  snd (fetch_header_bundle rel w3' id') = Ok b' ->
  let r := comparison b b' in
  (same_chain r = true <-> eth_chain_id (node w3) = eth_chain_id (node w3')) /\
  (same_num r = true <-> Header.number h = Header.number h') /\
  (same_hash r = true <-> Header.hash h = Header.hash h') /\
  (same_parent r = true <-> Header.parentHash h = Header.parentHash h') /\
  (same_state r = true <-> Header.stateRoot h = Header.stateRoot h') /\
  (same_receipts r = true <-> Header.receiptsRoot h = Header.receiptsRoot h') /\
  (same_txroot r = true <->
   Header.transactionsRoot h = Header.transactionsRoot h').
Proof.
  intros Hh Hh' Hb Hb' r. subst r.
  destruct (fetch_header_bundle_inv _ _ _ _ Hb) as (h0 & n & c & E & _ & _ & ->).
  destruct (fetch_header_bundle_inv _ _ _ _ Hb') as (h0' & n' & c' & E' & _ & _ & ->).
  assert (h0 = h) as -> by congruence. assert (h0' = h') as -> by congruence.
  cbn [comparison same_chain same_num same_hash same_parent same_state
       same_receipts same_txroot Bundle.chain_id Bundle.number Bundle.hash
       Bundle.parentHash Bundle.stateRoot Bundle.receiptsRoot
       Bundle.transactionsRoot].
  rewrite !Z.eqb_eq, !String.eqb_eq.
  repeat split; intros H;
    first [exact H | now apply HexBytes_hex_inj in H | now rewrite H].
Qed.

Lemma comparison_reflects_headers_witness :
  exists b b' : Bundle.t,
    snd (fetch_header_bundle Hexbytes0
           {| endpoint := "https://a.example"; node := node_a |} (Tag "latest"))
    = Ok b /\
    snd (fetch_header_bundle Hexbytes0
           {| endpoint := "https://b.example"; node := node_b |} (Tag "latest"))
    = Ok b' /\
    let r := comparison b b' in
    (same_chain r = true <-> eth_chain_id node_a = eth_chain_id node_b) /\
    (same_num r = true <->
     Header.number (header_at 100) = Header.number (header_at 101)) /\
    (same_hash r = true <->
     Header.hash (header_at 100) = Header.hash (header_at 101)) /\
    (same_parent r = true <->
     Header.parentHash (header_at 100) = Header.parentHash (header_at 101)) /\
    (same_state r = true <->
     Header.stateRoot (header_at 100) = Header.stateRoot (header_at 101)) /\
    (same_receipts r = true <->
     Header.receiptsRoot (header_at 100) = Header.receiptsRoot (header_at 101))
    /\
    (same_txroot r = true <->
     Header.transactionsRoot (header_at 100)
     = Header.transactionsRoot (header_at 101)).
Proof.
  eexists. eexists. split; [vm_compute; reflexivity|].
  split; [vm_compute; reflexivity|].
  apply (comparison_reflects_headers Hexbytes0
           {| endpoint := "https://a.example"; node := node_a |}
           {| endpoint := "https://b.example"; node := node_b |}
           (Tag "latest") (Tag "latest") (header_at 100) (header_at 101));
    vm_compute; reflexivity.
Defined.

(** X9.  When two providers serve the same header under the same chain ID,
    within the range of the commitment's integers, the two fetched bundles
    agree on all eight comparisons and [compare] prints the soundness
    line. *)
Theorem same_header_is_sound
        (rel : hexbytes_release) (w3 w3' : Web3) (id id' : block_id)
        (h : Header.t) :
  eth_get_block (node w3) id = Ok h ->
  eth_get_block (node w3') id' = Ok h ->
  eth_chain_id (node w3) = eth_chain_id (node w3') ->
  fits8 (eth_chain_id (node w3)) ->
  fits8 (Header.number h) -> fits8 (Header.timestamp h) ->
  exists b b',
    snd (fetch_header_bundle rel w3 id) = Ok b /\
    snd (fetch_header_bundle rel w3' id') = Ok b' /\
    b = b' /\
    comparison b b' =
    {| same_chain := true; same_num := true; same_hash := true;
       same_parent := true; same_state := true; same_receipts := true;
       same_txroot := true; same_commit := true |} /\
    sound (comparison b b') = true /\
    In (Print SoundnessConfirmed) (fst (compare b b')).
Proof.
  intros Hh Hh' Hcid Hc Hn Ht.
  pose proof (header_commitment_of_fields _ _ _ _ (fields_Ok rel _ h Hc Hn Ht))
    as Hcommit.
  destruct (fetch_header_bundle_Ok rel w3 id h _ Hh Hc Hcommit)
    as (name & Hname & Hfetch).
  assert (Hc' : fits8 (eth_chain_id (node w3'))) by (now rewrite <- Hcid).
  assert (Hcommit' := Hcommit). rewrite Hcid in Hcommit'.
  destruct (fetch_header_bundle_Ok rel w3' id' h _ Hh' Hc' Hcommit')
    as (name' & Hname' & Hfetch').
  assert (name' = name) as -> by (rewrite <- Hcid in Hname'; congruence).
  rewrite Hfetch, Hfetch'. cbn [snd]. rewrite <- Hcid.
  do 2 eexists. split; [reflexivity|]. split; [reflexivity|].
  split; [reflexivity|].
  assert (Hcmp : forall b : Bundle.t,
             comparison b b =
             {| same_chain := true; same_num := true; same_hash := true;
                same_parent := true; same_state := true;
                same_receipts := true; same_txroot := true;
                same_commit := true |}).
  { intros b. unfold comparison. now rewrite !Z.eqb_refl, !String.eqb_refl. }
  split; [apply Hcmp|]. split; [now rewrite Hcmp|].
  unfold compare. rewrite Hcmp. cbn. tauto.
Qed.

Lemma same_header_is_sound_witness :
  exists b b',
    snd (fetch_header_bundle Hexbytes1
           {| endpoint := "https://a.example"; node := node_a |} (Height 100))
    = Ok b /\
    snd (fetch_header_bundle Hexbytes1
           {| endpoint := "https://b.example"; node := node_b |} (Height 100))
    = Ok b' /\
    b = b' /\
    comparison b b' =
    {| same_chain := true; same_num := true; same_hash := true;
       same_parent := true; same_state := true; same_receipts := true;
       same_txroot := true; same_commit := true |} /\
    sound (comparison b b') = true /\
    In (Print SoundnessConfirmed) (fst (compare b b')).
Proof.
  apply (same_header_is_sound Hexbytes1
           {| endpoint := "https://a.example"; node := node_a |}
           {| endpoint := "https://b.example"; node := node_b |}
           (Height 100) (Height 100) (header_at 100));
    first [reflexivity | unfold fits8; cbn; lia].
Defined.



(** ** The preimage outside the field domain *)

(** X11.  Nothing marks where one hash-like field ends and the next begins,
    and their lengths are not checked: two headers with the same number and
    timestamp whose five hash-like fields concatenate to the same bytes get
    the same commitment (shown for [hex()] with the 0x prefix), even when the
    fields themselves differ. *)
Theorem commitment_ignores_field_boundaries (cid : Z) (h h' : Header.t) :
  Header.number h = Header.number h' ->
  Header.timestamp h = Header.timestamp h' ->
  Header.hash h ++ Header.parentHash h ++ Header.stateRoot h
    ++ Header.receiptsRoot h ++ Header.transactionsRoot h
  = Header.hash h' ++ Header.parentHash h' ++ Header.stateRoot h'
      ++ Header.receiptsRoot h' ++ Header.transactionsRoot h' ->
  header_commitment Hexbytes0 cid h = header_commitment Hexbytes0 cid h'.
Proof.
  intros Hn Ht Hcat.
  destruct (fits8_dec cid) as [Hc|Hc].
  2:{ unfold header_commitment. rewrite !fields_Raise by tauto. reflexivity. }
  destruct (fits8_dec (Header.number h)) as [Hfn|Hfn].
  2:{ unfold header_commitment. rewrite fields_Raise by tauto.
      rewrite fields_Raise by (rewrite <- Hn; tauto). reflexivity. }
  destruct (fits8_dec (Header.timestamp h)) as [Hft|Hft].
  2:{ unfold header_commitment. rewrite fields_Raise by tauto.
      rewrite fields_Raise by (rewrite <- Ht; tauto). reflexivity. }
  unfold header_commitment.
  rewrite (fields_Ok Hexbytes0 cid h Hc Hfn Hft).
  rewrite (fields_Ok Hexbytes0 cid h' Hc) by (now rewrite <- ?Hn, <- ?Ht).
  cbn [sliced mbind result_bind]. rewrite <- Hn, <- Ht.
  apply (f_equal (fun l => l ++ big_endian8 (Header.timestamp h))) in Hcat.
  rewrite <- !app_assoc in Hcat. now rewrite Hcat.
Qed.

Lemma commitment_ignores_field_boundaries_witness :
  sample_header <> shifted_header /\
  header_commitment Hexbytes0 1 sample_header =
  header_commitment Hexbytes0 1 shifted_header.
Proof.
  split.
  - intros E. apply (f_equal (fun x => length (Header.hash x))) in E.
    vm_compute in E. discriminate E.
  - apply (commitment_ignores_field_boundaries 1 sample_header shifted_header);
      reflexivity.
Defined.

(** ** What the parser returns *)

(** X12.  A tag returned by the parser is one of the four lowercase tags, it
    is the lowercase form of the argument, and parsing it again returns it;
    a height is returned only for an argument that is not a tag in any case,
    and it is what [int(arg, 0)] reads. *)
Theorem parse_block_arg_results :
  (forall (arg t : string),
      parse_block_arg arg = Ok (Tag t) ->
      In t tags /\ t = lower arg /\ parse_block_arg t = Ok (Tag t)) /\
  (forall (arg : string) (n : Z),
      parse_block_arg arg = Ok (Height n) ->
      ~ In (lower arg) tags /\ int_base0 arg = Ok n).
Proof.
  split.
  - intros arg t. unfold parse_block_arg at 1.
    destruct (is_tag (lower arg)) eqn:E.
    + intros H. injection H as <-. apply is_tag_In in E.
      split; [exact E|]. split; [reflexivity|].
      assert (Hl : lower (lower arg) = lower arg).
      { cbn in E. destruct E as [<-|[<-|[<-|[<-|[]]]]]; reflexivity. }
      unfold parse_block_arg. rewrite Hl.
      apply is_tag_In in E. now rewrite E.
    + destruct (int_base0 arg); discriminate.
  - intros arg n. unfold parse_block_arg.
    destruct (is_tag (lower arg)) eqn:E; [discriminate|].
    destruct (int_base0 arg) as [m|e]; [|discriminate].
    cbn. intros H. injection H as ->. split; [|reflexivity].
    intros Hin. apply is_tag_In in Hin. congruence.
Qed.

(** ** Labels and texts *)

Lemma list_ascii_of_string_app (s t : string) :
  list_ascii_of_string (s +:+ t) =
  list_ascii_of_string s ++ list_ascii_of_string t.
Proof.
  induction s as [|c s IH]; [reflexivity|].
  change (String c s +:+ t) with (String c (s +:+ t)).
  cbn [list_ascii_of_string app]. now rewrite IH.
Qed.

Lemma append_inv_tail (s s' t : string) : s +:+ t = s' +:+ t -> s = s'.
Proof.
  intros E. apply (f_equal list_ascii_of_string) in E.
  rewrite !list_ascii_of_string_app in E. apply app_inv_tail in E.
  rewrite <- (string_of_list_ascii_of_string s).
  rewrite <- (string_of_list_ascii_of_string s'). now rewrite E.
Qed.

Lemma NETWORKS_lookup (cid : Z) (label : string) :
  NETWORKS !! cid = Some label ->
  In (cid, label)
     [(1, "Ethereum Mainnet"); (11155111, "Sepolia Testnet"); (10, "Optimism");
      (137, "Polygon"); (42161, "Arbitrum One")]%string.
Proof.
  unfold NETWORKS. intros H.
  repeat (apply lookup_insert_Some in H as [[<- <-]|[_ H]]; [cbn; tauto|]).
  rewrite lookup_empty in H. discriminate.
Qed.

(** X13.  Different chain IDs never get the same network label: the five
    known labels are distinct, a fallback label is never a known one, and
    two fallback labels carry different numbers. *)
Theorem network_name_labels_distinct (cid cid' : Z) (label label' : string) :
  cid <> cid' ->
  network_name cid = Ok label -> network_name cid' = Ok label' ->
  label <> label'.
Proof.
  intros Hne. unfold network_name.
  destruct (str_int cid) as [d|] eqn:Hd; [|discriminate].
  destruct (str_int cid') as [d'|] eqn:Hd'; [|discriminate].
  cbn [mbind result_bind]. intros H H'. injection H as <-. injection H' as <-.
  destruct (NETWORKS !! cid) as [l|] eqn:Hl;
    destruct (NETWORKS !! cid') as [l'|] eqn:Hl'; cbn [default from_option Datatypes.id].
  - apply NETWORKS_lookup in Hl, Hl'. cbn in Hl, Hl'.
    intros E. subst l'.
    repeat (destruct Hl as [Hl|Hl]; [injection Hl as <- <-|]); [..|destruct Hl];
      repeat (destruct Hl' as [Hl'|Hl']; [injection Hl' as <-;
                                           try discriminate; try congruence|]);
      try destruct Hl'.
  - apply NETWORKS_lookup in Hl. cbn in Hl. intros E.
    repeat (destruct Hl as [Hl|Hl]; [injection Hl as <- <-; discriminate E|]).
    destruct Hl.
  - apply NETWORKS_lookup in Hl'. cbn in Hl'. intros E.
    repeat (destruct Hl' as [Hl'|Hl']; [injection Hl' as <- <-; discriminate E|]).
    destruct Hl'.
  - intros E. apply String.app_inj in E. apply append_inv_tail in E. subst d'.
    apply int_base0_str_int in Hd, Hd'. congruence.
Qed.

Lemma network_name_labels_distinct_witness :
  1 <> 5 /\
  network_name 1 = Ok "Ethereum Mainnet"%string /\
  network_name 5 = Ok "Unknown (chain ID 5)"%string /\
  "Ethereum Mainnet"%string <> "Unknown (chain ID 5)"%string.
Proof.
  assert (H : 1 <> 5) by lia.
  split; [exact H|]. split; [reflexivity|]. split; [reflexivity|].
  exact (network_name_labels_distinct 1 5 _ _ H eq_refl eq_refl).
Defined.

(** Both digits of a byte are lowercase hexadecimal digits. *)
Lemma hex_pair_lowercase (b : byte) :
  let c := hex_digit (Z_of_byte b / 16) in
  let d := hex_digit (Z_of_byte b mod 16) in
  (digit_value c < 16 /\ lower_char c = c) /\
  (digit_value d < 16 /\ lower_char d = d).
Proof. destruct b; vm_compute; auto. Qed.

Lemma hexlify_shape (bs : list byte) :
  String.length (hexlify bs) = (2 * length bs)%nat /\
  Forall (fun c => digit_value c < 16 /\ lower_char c = c)
         (list_ascii_of_string (hexlify bs)).
Proof.
  induction bs as [|b bs [IHl IHf]]; [split; [reflexivity|constructor]|].
  destruct (hex_pair_lowercase b) as [Hc Hd].
  cbn [hexlify String.length list_ascii_of_string length]. split.
  - rewrite IHl. lia.
  - constructor; [exact Hc|]. constructor; [exact Hd|exact IHf].
Qed.

(** X14.  A commitment is always the text 0x followed by what [hex()] gives
    for the 32-byte digest: 64 lowercase hexadecimal digits, with a second
    0x in front of them when [hex()] writes a prefix of its own. *)
Theorem header_commitment_text
        (rel : hexbytes_release) (cid : Z) (h : Header.t) (c : string) :
  header_commitment rel cid h = Ok c ->
  exists digits : string,
    String.length digits = 64%nat /\
    Forall (fun ch => digit_value ch < 16 /\ lower_char ch = ch)
           (list_ascii_of_string digits) /\
    c = match rel with
        | Hexbytes0 => ("0x0x" +:+ digits)%string
        | Hexbytes1 => ("0x" +:+ digits)%string
        end.
Proof.
  unfold header_commitment.
  destruct (fields rel cid h) as [p|e]; [|discriminate].
  cbn [mbind result_bind]. intros H. injection H as <-.
  destruct (hexlify_shape (Keccak.keccak256 p)) as [Hlen Hall].
  rewrite keccak256_length in Hlen.
  exists (hexlify (Keccak.keccak256 p)).
  split; [exact Hlen|]. split; [exact Hall|]. now destruct rel.
Qed.

Lemma header_commitment_text_witness :
  header_commitment Hexbytes0 1 sample_header =
  Ok "0x0xe217c3ad9e9d25fc06c0c8a828cbf83e82dd0280fc11c6989749d53485e44cda"%string
  /\
  exists digits : string,
    String.length digits = 64%nat /\
    Forall (fun ch => digit_value ch < 16 /\ lower_char ch = ch)
           (list_ascii_of_string digits) /\
    "0x0xe217c3ad9e9d25fc06c0c8a828cbf83e82dd0280fc11c6989749d53485e44cda"%string
    = ("0x0x" +:+ digits)%string.
Proof.
  assert (H : header_commitment Hexbytes0 1 sample_header =
              Ok "0x0xe217c3ad9e9d25fc06c0c8a828cbf83e82dd0280fc11c6989749d53485e44cda"%string)
    by (vm_compute; reflexivity).
  split; [exact H|].
  exact (header_commitment_text Hexbytes0 1 sample_header _ H).
Defined.

(** ** The length of the preimage *)

(** X15.  The preimage has 24 bytes for the three integers plus what the
    slices keep of the five hash-like fields, whatever their lengths: all of
    each field when [hex()] writes the 0x prefix, all but its first byte
    otherwise.  It is 184 bytes long only when these add up to 160. *)
Theorem fields_length
        (rel : hexbytes_release) (cid : Z) (h : Header.t) (p : list byte) :
  fields rel cid h = Ok p ->
  length p =
  (24 + kept rel (length (Header.hash h))
      + kept rel (length (Header.parentHash h))
      + kept rel (length (Header.stateRoot h))
      + kept rel (length (Header.receiptsRoot h))
      + kept rel (length (Header.transactionsRoot h)))%nat.
Proof.
  intros H.
  destruct (fits8_dec cid) as [Hc|Hc];
    [|rewrite fields_Raise in H by tauto; discriminate].
  destruct (fits8_dec (Header.number h)) as [Hn|Hn];
    [|rewrite fields_Raise in H by tauto; discriminate].
  destruct (fits8_dec (Header.timestamp h)) as [Ht|Ht];
    [|rewrite fields_Raise in H by tauto; discriminate].
  rewrite (fields_Ok rel cid h Hc Hn Ht) in H.
  assert (E : forall a b : list byte, Ok a = Ok b -> b = a)
    by (intros a b Hab; now injection Hab).
  apply E in H. rewrite H. clear E H.
  rewrite !length_app, !big_endian8_length.
  assert (Hk : forall bs : list byte, length (sliced rel bs) = kept rel (length bs))
    by (intros bs; destruct rel, bs; reflexivity).
  rewrite !Hk. lia.
Qed.

Lemma fields_length_witness :
  exists p : list byte,
    fields Hexbytes0 1 short_state_header = Ok p /\
    length p = 183%nat /\
    length p =
    (24 + kept Hexbytes0 (length (Header.hash short_state_header))
        + kept Hexbytes0 (length (Header.parentHash short_state_header))
        + kept Hexbytes0 (length (Header.stateRoot short_state_header))
        + kept Hexbytes0 (length (Header.receiptsRoot short_state_header))
        + kept Hexbytes0 (length (Header.transactionsRoot short_state_header)))%nat.
Proof.
  eexists. split; [vm_compute; reflexivity|]. split; [vm_compute; reflexivity|].
  apply (fields_length Hexbytes0 1 short_state_header). vm_compute. reflexivity.
Defined.

(** * The two readings of [hex()] in [header_commitment]

    Lines 48 to 52 of the source slice [[2:]] off the text of [hex()], as if
    it began with 0x; line 55 puts 0x in front of the text of [hex()], as if
    it did not.  No release of hexbytes does both.  From release 1.0 on (the
    release web3 7 installs) the text has no prefix, and the slices take the
    first byte off each hash-like field. *)

(** Without the prefix the preimage depends on the hash-like fields through
    their tails only. *)
Lemma fields_of_tails (cid : Z) (h h' : Header.t) :
  Header.number h = Header.number h' ->
  Header.timestamp h = Header.timestamp h' ->
  tl (Header.hash h) = tl (Header.hash h') ->
  tl (Header.parentHash h) = tl (Header.parentHash h') ->
  tl (Header.stateRoot h) = tl (Header.stateRoot h') ->
  tl (Header.receiptsRoot h) = tl (Header.receiptsRoot h') ->
  tl (Header.transactionsRoot h) = tl (Header.transactionsRoot h') ->
  fields Hexbytes1 cid h = fields Hexbytes1 cid h'.
Proof.
  intros Hn Ht E1 E2 E3 E4 E5.
  destruct (fits8_dec cid) as [Hc|Hc];
    [|rewrite !fields_Raise by tauto; reflexivity].
  destruct (fits8_dec (Header.number h)) as [Hfn|Hfn].
  2:{ rewrite fields_Raise by tauto.
      rewrite fields_Raise by (rewrite <- Hn; tauto). reflexivity. }
  destruct (fits8_dec (Header.timestamp h)) as [Hft|Hft].
  2:{ rewrite fields_Raise by tauto.
      rewrite fields_Raise by (rewrite <- Ht; tauto). reflexivity. }
  rewrite (fields_Ok Hexbytes1 cid h Hc Hfn Hft).
  rewrite (fields_Ok Hexbytes1 cid h' Hc) by (now rewrite <- ?Hn, <- ?Ht).
  cbn [sliced]. now rewrite Hn, Ht, E1, E2, E3, E4, E5.
Qed.

(** C2.  At every input of the field domain the code misses the 184-byte
    preimage of the claim when [hex()] has no prefix: the preimage it hashes
    has 179 bytes, the first byte of each hash-like field being sliced off,
    and the commitment is the Keccak-256 text of those 179 bytes.  When
    [hex()] writes the prefix the 184 bytes are hashed, and the text
    returned starts with 0x twice. *)
Theorem header_commitment_misses_184_bytes (cid : Z) (h : Header.t) :
  in_field_domain cid h ->
  let expected :=
    big_endian8 cid ++ big_endian8 (Header.number h) ++ Header.hash h
      ++ Header.parentHash h ++ Header.stateRoot h ++ Header.receiptsRoot h
      ++ Header.transactionsRoot h ++ big_endian8 (Header.timestamp h) in
  length expected = 184%nat /\
  (exists p,
     fields Hexbytes1 cid h = Ok p /\ length p = 179%nat /\
     p = big_endian8 cid ++ big_endian8 (Header.number h)
         ++ tl (Header.hash h) ++ tl (Header.parentHash h)
         ++ tl (Header.stateRoot h) ++ tl (Header.receiptsRoot h)
         ++ tl (Header.transactionsRoot h)
         ++ big_endian8 (Header.timestamp h) /\
     header_commitment Hexbytes1 cid h =
     Ok ("0x" +:+ hexlify (Keccak.keccak256 p))%string) /\
  fields Hexbytes1 cid h <> Ok expected /\
  header_commitment Hexbytes0 cid h =
  Ok ("0x0x" +:+ hexlify (Keccak.keccak256 expected))%string.
Proof.
  intros D expected.
  destruct (fields_on_domain cid h D) as (Hlen & Hf0).
  destruct (fields_without_prefix cid h D) as (p & Hf1 & Hlen1 & Hp).
  split; [exact Hlen|]. split; [|split].
  - exists p. split; [exact Hf1|]. split; [exact Hlen1|]. split; [exact Hp|].
    now rewrite (header_commitment_of_fields _ _ _ _ Hf1).
  - rewrite Hf1. intros E.
    assert (Hpe : p = expected) by congruence.
    apply (f_equal (@length byte)) in Hpe. subst expected.
    rewrite Hlen1, Hlen in Hpe. discriminate Hpe.
  - now rewrite (header_commitment_of_fields _ _ _ _ Hf0).
Qed.

Lemma header_commitment_misses_184_bytes_witness :
  in_field_domain 1 sample_header /\
  header_commitment Hexbytes1 1 sample_header =
  Ok "0x1c5076f8cb22f32c6a43525293d9643891f8885d9f0b343563aade6b02beefa0"%string
  /\
  header_commitment Hexbytes0 1 sample_header =
  Ok "0x0xe217c3ad9e9d25fc06c0c8a828cbf83e82dd0280fc11c6989749d53485e44cda"%string
  /\
  let expected :=
    big_endian8 1 ++ big_endian8 (Header.number sample_header)
      ++ Header.hash sample_header ++ Header.parentHash sample_header
      ++ Header.stateRoot sample_header ++ Header.receiptsRoot sample_header
      ++ Header.transactionsRoot sample_header
      ++ big_endian8 (Header.timestamp sample_header) in
  length expected = 184%nat /\
  (exists p,
     fields Hexbytes1 1 sample_header = Ok p /\ length p = 179%nat /\
     p = big_endian8 1 ++ big_endian8 (Header.number sample_header)
         ++ tl (Header.hash sample_header)
         ++ tl (Header.parentHash sample_header)
         ++ tl (Header.stateRoot sample_header)
         ++ tl (Header.receiptsRoot sample_header)
         ++ tl (Header.transactionsRoot sample_header)
         ++ big_endian8 (Header.timestamp sample_header) /\
     header_commitment Hexbytes1 1 sample_header =
     Ok ("0x" +:+ hexlify (Keccak.keccak256 p))%string) /\
  fields Hexbytes1 1 sample_header <> Ok expected /\
  header_commitment Hexbytes0 1 sample_header =
  Ok ("0x0x" +:+ hexlify (Keccak.keccak256 expected))%string.
Proof.
  split; [exact sample_in_field_domain|].
  split; [vm_compute; reflexivity|]. split; [vm_compute; reflexivity|].
  exact (header_commitment_misses_184_bytes 1 sample_header
           sample_in_field_domain).
Defined.

Lemma first_byte_in_field_domain : in_field_domain 1 first_byte_header.
Proof. unfold in_field_domain, fits8. cbn. repeat split; lia. Qed.

(** C7.  Without the prefix in [hex()] the encoding the code computes is not
    injective on the field domain: two inputs of the domain with the same
    integers whose hash-like fields agree from their second byte on have one
    and the same preimage, of 179 bytes, however their first bytes differ. *)
Theorem fields_merge_first_bytes (cid : Z) (h h' : Header.t) :
  in_field_domain cid h -> in_field_domain cid h' ->
  Header.number h = Header.number h' ->
  Header.timestamp h = Header.timestamp h' ->
  tl (Header.hash h) = tl (Header.hash h') ->
  tl (Header.parentHash h) = tl (Header.parentHash h') ->
  tl (Header.stateRoot h) = tl (Header.stateRoot h') ->
  tl (Header.receiptsRoot h) = tl (Header.receiptsRoot h') ->
  tl (Header.transactionsRoot h) = tl (Header.transactionsRoot h') ->
  exists p,
    fields Hexbytes1 cid h = Ok p /\ fields Hexbytes1 cid h' = Ok p /\
    length p = 179%nat.
Proof.
  intros D D' Hn Ht E1 E2 E3 E4 E5.
  destruct (fields_without_prefix cid h D) as (p & Hf & Hlen & _).
  exists p. split; [exact Hf|]. split; [|exact Hlen].
  now rewrite <- (fields_of_tails cid h h' Hn Ht E1 E2 E3 E4 E5).
Qed.

Lemma fields_merge_first_bytes_witness :
  in_field_domain 1 sample_header /\ in_field_domain 1 first_byte_header /\
  sample_header <> first_byte_header /\
  exists p,
    fields Hexbytes1 1 sample_header = Ok p /\
    fields Hexbytes1 1 first_byte_header = Ok p /\
    length p = 179%nat.
Proof.
  split; [exact sample_in_field_domain|].
  split; [exact first_byte_in_field_domain|]. split.
  - intros E. apply (f_equal Header.stateRoot) in E.
    vm_compute in E. discriminate E.
  - apply (fields_merge_first_bytes 1 sample_header first_byte_header
             sample_in_field_domain first_byte_in_field_domain);
      reflexivity.
Defined.

(** C5.  Without the prefix in [hex()] a difference in the first byte of the
    state root alone is reported as [stateRoot] false and an unsound
    verdict, but with the commitment line true: two providers that serve
    headers equal in all but the first byte of the state root yield bundles
    with the same commitment. *)
Theorem first_byte_of_state_root_not_committed
        (w3 w3' : Web3) (id id' : block_id) (h h' : Header.t) :
  eth_get_block (node w3) id = Ok h ->
  eth_get_block (node w3') id' = Ok h' ->
  eth_chain_id (node w3) = eth_chain_id (node w3') ->
  fits8 (eth_chain_id (node w3)) ->
  fits8 (Header.number h) -> fits8 (Header.timestamp h) ->
  Header.number h = Header.number h' ->
  Header.timestamp h = Header.timestamp h' ->
  Header.hash h = Header.hash h' ->
  Header.parentHash h = Header.parentHash h' ->
  Header.receiptsRoot h = Header.receiptsRoot h' ->
  Header.transactionsRoot h = Header.transactionsRoot h' ->
  Header.stateRoot h <> Header.stateRoot h' ->
  tl (Header.stateRoot h) = tl (Header.stateRoot h') ->
  exists b b',
    snd (fetch_header_bundle Hexbytes1 w3 id) = Ok b /\
    snd (fetch_header_bundle Hexbytes1 w3' id') = Ok b' /\
    comparison b b' =
    {| same_chain := true; same_num := true; same_hash := true;
       same_parent := true; same_state := false; same_receipts := true;
       same_txroot := true; same_commit := true |} /\
    sound (comparison b b') = false.
Proof.
  intros Hh Hh' Hcid Hc Hn Ht En Et E1 E2 E4 E5 Hs E3.
  pose proof (header_commitment_of_fields _ _ _ _
                (fields_Ok Hexbytes1 _ h Hc Hn Ht)) as Hcommit.
  assert (Hcommit' :
            header_commitment Hexbytes1 (eth_chain_id (node w3')) h' =
            header_commitment Hexbytes1 (eth_chain_id (node w3)) h).
  { unfold header_commitment. rewrite <- Hcid.
    rewrite (fields_of_tails _ h h' En Et); [reflexivity|..];
      now rewrite ?E1, ?E2, ?E4, ?E5. }
  rewrite Hcommit in Hcommit'.
  destruct (fetch_header_bundle_Ok Hexbytes1 w3 id h _ Hh Hc Hcommit)
    as (name & _ & Hfetch).
  assert (Hc' : fits8 (eth_chain_id (node w3'))) by (now rewrite <- Hcid).
  destruct (fetch_header_bundle_Ok Hexbytes1 w3' id' h' _ Hh' Hc' Hcommit')
    as (name' & _ & Hfetch').
  rewrite Hfetch, Hfetch'. cbn [snd]. do 2 eexists.
  split; [reflexivity|]. split; [reflexivity|].
  assert (Hst : String.eqb (HexBytes_hex Hexbytes1 (Header.stateRoot h))
                           (HexBytes_hex Hexbytes1 (Header.stateRoot h'))
                = false).
  { apply String.eqb_neq. intros E. now apply HexBytes_hex_inj in E. }
  unfold sound, all, comparison.
  cbn [Bundle.chain_id Bundle.number Bundle.hash Bundle.parentHash
       Bundle.stateRoot Bundle.receiptsRoot Bundle.transactionsRoot
       Bundle.commitment same_chain same_num same_hash same_parent same_state
       same_receipts same_txroot same_commit forallb Datatypes.id].
  rewrite Hst, <- Hcid, <- En, <- E1, <- E2, <- E4, <- E5.
  rewrite !Z.eqb_refl, !String.eqb_refl. split; reflexivity.
Qed.

Lemma first_byte_of_state_root_not_committed_witness :
  Header.stateRoot sample_header <> Header.stateRoot first_byte_header /\
  exists b b',
    snd (fetch_header_bundle Hexbytes1
           {| endpoint := "https://a.example";
              node := node_serving 1 sample_header |} (Height 18000000))
    = Ok b /\
    snd (fetch_header_bundle Hexbytes1
           {| endpoint := "https://b.example";
              node := node_serving 1 first_byte_header |} (Height 18000000))
    = Ok b' /\
    comparison b b' =
    {| same_chain := true; same_num := true; same_hash := true;
       same_parent := true; same_state := false; same_receipts := true;
       same_txroot := true; same_commit := true |} /\
    sound (comparison b b') = false.
Proof.
  assert (Hs : Header.stateRoot sample_header
               <> Header.stateRoot first_byte_header)
    by (vm_compute; discriminate).
  split; [exact Hs|].
  apply (first_byte_of_state_root_not_committed
           {| endpoint := "https://a.example";
              node := node_serving 1 sample_header |}
           {| endpoint := "https://b.example";
              node := node_serving 1 first_byte_header |}
           (Height 18000000) (Height 18000000)
           sample_header first_byte_header);
    first [exact Hs | reflexivity | unfold fits8; cbn; lia].
Defined.
